(** * model_petri_equation_conversion_amr.py

    A shallow embedding of the three helper functions of the notebook
    [notebooks/model_petri_equation_conversion_amr.py]:
    [convert_latex2mathml], [convert_mathml2petrinet] and [draw_graph].

    Python values coming from JSON are an inductive type; dictionaries keep
    their insertion order as association lists.  Exceptions are an error
    type, and the functions that touch the outside world (the model object
    passed by reference, standard output, the files written) thread a
    [world] through a small state-and-error monad.  The libraries the
    notebook calls (latex2mathml, html, requests, pandas, networkx,
    matplotlib, numpy) are taken as parameters. *)

From Stdlib Require Import List String Ascii ZArith QArith Bool Lia.
From Stdlib Require Import DecimalString.
Import ListNotations.
Open Scope string_scope.
Open Scope Z_scope.
Open Scope list_scope.

Set Warnings "-register-all".

(** ** Python values *)

(** The values [json.load] and [Response.json] produce.  A [JObj] is a
    [dict], in insertion order. *)
Inductive json : Type :=
| JNull
| JBool (b : bool)
| JNum (z : Z)
| JFloat (q : Q)
| JStr (s : string)
| JArr (items : list json)
| JObj (fields : list (string * json)).

Definition pydict := list (string * json).

(** The empty dictionary, the literal written as an opening and a closing
    brace in the source. *)
Definition empty_dict : json := JObj [].

(** ** Exceptions and results *)

Inductive exn : Type :=
| KeyError (key : json)
| TypeError (msg : string)
| IndexError
| UnboundLocalError (name : string)
| LibraryError (msg : string).

Inductive result (A : Type) : Type :=
| Ok (a : A)
| Raise (e : exn).
Arguments Ok {A} a.
Arguments Raise {A} e.

Module Res.

Definition bind {A B} (r : result A) (k : A -> result B) : result B :=
  match r with
  | Ok a => k a
  | Raise e => Raise e
  end.

(** A list comprehension whose element expression may raise: the elements
    are evaluated left to right and the first exception ends it. *)
Fixpoint traverse {A B} (f : A -> result B) (l : list A) : result (list B) :=
  match l with
  | [] => Ok []
  | x :: l' =>
      bind (f x) (fun y => bind (traverse f l') (fun ys => Ok (y :: ys)))
  end.

(** A comprehension with two [for] clauses: the inner iterable is
    recomputed for each outer element. *)
Fixpoint traverse2 {A B C} (inner : A -> result (list B)) (f : A -> B -> result C)
    (l : list A) : result (list C) :=
  match l with
  | [] => Ok []
  | x :: l' =>
      bind (inner x) (fun ys =>
      bind (traverse (f x) ys) (fun zs =>
      bind (traverse2 inner f l') (fun rest => Ok (zs ++ rest))))
  end.

End Res.

Notation "x <-- r ;; k" := (Res.bind r (fun x => k))
  (at level 61, r at next level, right associativity).

(** ** Subscripting and iteration *)

Fixpoint dict_get (d : pydict) (k : string) : result json :=
  match d with
  | [] => Raise (KeyError (JStr k))
  | (k', v) :: d' => if String.eqb k' k then Ok v else dict_get d' k
  end.

(** [v[k]] for a string key [k]. *)
Definition getitem (v : json) (k : string) : result json :=
  match v with
  | JObj d => dict_get d k
  | JArr _ => Raise (TypeError "list indices must be integers or slices, not str")
  | JStr _ => Raise (TypeError "string indices must be integers, not 'str'")
  | _ => Raise (TypeError "object is not subscriptable")
  end.

Fixpoint chars (s : string) : list json :=
  match s with
  | EmptyString => []
  | String c s' => JStr (String c EmptyString) :: chars s'
  end.

(** The elements a [for] clause ranges over: the items of a list, the keys
    of a dict, the characters of a string. *)
Definition py_iter (v : json) : result (list json) :=
  match v with
  | JArr l => Ok l
  | JObj d => Ok (map (fun kv => JStr (fst kv)) d)
  | JStr s => Ok (chars s)
  | _ => Raise (TypeError "object is not iterable")
  end.

(** ** The node list and the edge list, AMR format (lines 101-111) *)

(** [{'id': ..., 'type': ...}] *)
Definition node_row (id : json) (ty : string) : pydict :=
  [("id", id); ("type", JStr ty)].

(** [{'id': '', 'source': ..., 'target': ..., 'edge_type': ...}] *)
Definition edge_row (source target : json) (ty : string) : pydict :=
  [("id", JStr EmptyString); ("source", source); ("target", target);
   ("edge_type", JStr ty)].

(** [model['model']['states']] and [model['model']['transitions']], as the
    sequences the comprehensions range over. *)
Definition amr_states (model : json) : result (list json) :=
  m <-- getitem model "model" ;;
  ss <-- getitem m "states" ;;
  py_iter ss.

Definition amr_transitions (model : json) : result (list json) :=
  m <-- getitem model "model" ;;
  ts <-- getitem m "transitions" ;;
  py_iter ts.

(** Line 105, the list handed to [pd.DataFrame]. *)
Definition amr_node_list (model : json) : result (list pydict) :=
  ss <-- amr_states model ;;
  srows <-- Res.traverse (fun state => id <-- getitem state "id" ;; Ok (node_row id "S")) ss ;;
  ts <-- amr_transitions model ;;
  trows <-- Res.traverse (fun trans => id <-- getitem trans "id" ;; Ok (node_row id "T")) ts ;;
  Ok (srows ++ trows).

(** Line 110. *)
Definition amr_edge_list (model : json) : result (list pydict) :=
  ts <-- amr_transitions model ;;
  irows <-- Res.traverse2
              (fun trans => inp <-- getitem trans "input" ;; py_iter inp)
              (fun trans state_id =>
                 tid <-- getitem trans "id" ;; Ok (edge_row state_id tid "I"))
              ts ;;
  ts' <-- amr_transitions model ;;
  orows <-- Res.traverse2
              (fun trans => out <-- getitem trans "output" ;; py_iter out)
              (fun trans state_id =>
                 tid <-- getitem trans "id" ;; Ok (edge_row tid state_id "O"))
              ts' ;;
  Ok (irows ++ orows).

(** ** The node list and the edge list, ACSet format (lines 78-98) *)

(** [d[k]] for a dict [d] whose keys are [1 .. len names], as built by
    [{(i + 1): ... for i, s in enumerate(...)}].  Python finds an integer
    key from any number equal to it; lists and dicts are unhashable. *)
Definition names_lookup (names : list json) (k : json) : result json :=
  let at_index (z : Z) :=
    if (1 <=? z) && (z <=? Z.of_nat (List.length names))
    then match nth_error names (Z.to_nat (z - 1)) with
         | Some v => Ok v
         | None => Raise (KeyError k)
         end
    else Raise (KeyError k) in
  match k with
  | JNum z => at_index z
  | JBool b => at_index (if b then 1 else 0)
  | JFloat q =>
      let r := Qred q in
      if Pos.eqb (Qden r) 1 then at_index (Qnum r) else Raise (KeyError k)
  | JNull | JStr _ => Raise (KeyError k)
  | JArr _ | JObj _ => Raise (TypeError "unhashable type")
  end.

(** [[s[field] for s in model[table]]] *)
Definition acset_column (model : json) (table field : string) : result (list json) :=
  t <-- getitem model table ;;
  rows <-- py_iter t ;;
  Res.traverse (fun s => getitem s field) rows.

(** [[names[d[field]] for d in model[table]]] *)
Definition acset_endpoints (model : json) (names : list json) (table field : string)
  : result (list json) :=
  t <-- getitem model table ;;
  rows <-- py_iter t ;;
  Res.traverse (fun d => k <-- getitem d field ;; names_lookup names k) rows.

Definition acset_edge_row (st : json * json) (source_type target_type ty : string) : pydict :=
  [("source", fst st); ("source_type", JStr source_type);
   ("target", snd st); ("target_type", JStr target_type);
   ("edge_type", JStr ty)].

Definition acset_node_list (model : json) : result (list pydict) :=
  snames <-- acset_column model "S" "sname" ;;
  tnames <-- acset_column model "T" "tname" ;;
  Ok (map (fun v => node_row v "S") snames ++ map (fun v => node_row v "T") tnames).

Definition acset_edge_list (model : json) (map_S map_T : list json) : result (list pydict) :=
  source_I <-- acset_endpoints model map_S "I" "is" ;;
  source_O <-- acset_endpoints model map_T "O" "ot" ;;
  target_I <-- acset_endpoints model map_T "I" "it" ;;
  target_O <-- acset_endpoints model map_S "O" "os" ;;
  Ok (map (fun st => acset_edge_row st "S" "T" "I") (combine source_I target_I)
      ++ map (fun st => acset_edge_row st "T" "S" "O") (combine source_O target_O)).

(** Lines 80-98: the name maps, then [df_nodes], then [df_edges]. *)
Definition acset_frames (model : json) : result (list pydict * list pydict) :=
  map_S <-- acset_column model "S" "sname" ;;
  map_T <-- acset_column model "T" "tname" ;;
  df_nodes <-- acset_node_list model ;;
  df_edges <-- acset_edge_list model map_S map_T ;;
  Ok (df_nodes, df_edges).

(** Lines 104-111: [df_nodes], then [df_edges]. *)
Definition amr_frames (model : json) : result (list pydict * list pydict) :=
  df_nodes <-- amr_node_list model ;;
  df_edges <-- amr_edge_list model ;;
  Ok (df_nodes, df_edges).

(** ** The world *)

(** Objects are passed by reference: a model document lives in the heap and
    the functions receive its location. *)
Definition loc := nat.

Record saved_image : Type := { image_path : string; image_dpi : Z }.

Record world : Type := {
  heap : loc -> json;
  files : list saved_image;
  stdout : list string
}.

Definition M (A : Type) : Type := world -> world * result A.

(** The world after a line went to standard output. *)
Definition printed (w : world) (line : string) : world :=
  {| heap := heap w; files := files w; stdout := stdout w ++ [line] |}.

(** The world after an image was written to [path]. *)
Definition saved (w : world) (path : string) (dpi : Z) : world :=
  {| heap := heap w;
     files := files w ++ [{| image_path := path; image_dpi := dpi |}];
     stdout := stdout w |}.

Module St.

Definition ret {A} (a : A) : M A := fun w => (w, Ok a).

Definition bind {A B} (m : M A) (k : A -> M B) : M B :=
  fun w =>
    match m w with
    | (w', Ok a) => k a w'
    | (w', Raise e) => (w', Raise e)
    end.

Definition lift {A} (r : result A) : M A := fun w => (w, r).

Definition deref (l : loc) : M json := fun w => (w, Ok (heap w l)).

(** Assignment through a reference; none of the three helper functions
    uses it. *)
Definition assign (l : loc) (v : json) : M unit :=
  fun w =>
    ({| heap := fun l' => if Nat.eqb l' l then v else heap w l';
        files := files w; stdout := stdout w |}, Ok tt).

Definition print (line : string) : M unit :=
  fun w => (printed w line, Ok tt).

Definition write_image (path : string) (dpi : Z) : M unit :=
  fun w => (saved w path dpi, Ok tt).

(** Reading a local variable that an untaken branch would have bound. *)
Definition local {A} (name : string) (v : option A) : M A :=
  match v with
  | Some a => ret a
  | None => lift (Raise (UnboundLocalError name))
  end.

End St.

Notation "x <- m ;; k" := (St.bind m (fun x => k))
  (at level 61, m at next level, right associativity).
Notation "m ;;; k" := (St.bind m (fun _ => k))
  (at level 61, right associativity).

(** ** convert_latex2mathml (lines 33-49) *)

Section Latex2MathML.

(** [latex2mathml.converter.convert], which rejects some inputs, and
    [html.unescape]. *)
Variable latex2mathml_convert : string -> result string.
Variable html_unescape : string -> string.

(** The body of [for i in range(len(model_latex))], over the indices
    still to visit, with the list [model_mathml] built so far. *)
Fixpoint latex_loop (model_latex : list string) (indices : list nat)
    (model_mathml : list string) : result (list string) :=
  match indices with
  | [] => Ok model_mathml
  | i :: indices' =>
      match nth_error model_latex i with
      | None => Raise IndexError
      | Some eq_i =>
          m <-- latex2mathml_convert eq_i ;;
          let m := html_unescape m in
          latex_loop model_latex indices' (model_mathml ++ [m])
      end
  end.

Definition convert_latex2mathml (model_latex : option (list string))
  : result (list string) :=
  match model_latex with
  | None => Raise (TypeError "object of type 'NoneType' has no len()")
  | Some l => latex_loop l (seq 0 (List.length l)) []
  end.

End Latex2MathML.

(** ** convert_mathml2petrinet (lines 52-70) *)

Definition REST_URL_SKEMA : string := "https://skema-rs.staging.terarium.ai".

(** What the function reads of a [requests.Response]; [res_json] is the
    outcome of [res.json()], which raises when the body is not JSON. *)
Record response : Type := {
  res_url : string;
  status_code : Z;
  text : string;
  res_json : result json
}.

Definition dquote : string := String (ascii_of_nat 34) EmptyString.
Definition newline_tab : string :=
  String (ascii_of_nat 10) (String (ascii_of_nat 9) EmptyString).

(** [str] of an [int]. *)
Definition str_int (z : Z) : string := NilZero.string_of_int (Z.to_int z).

(** The f-string of lines 60 and 66. *)
Definition status_line (res : response) : string :=
  (res_url res ++ ": Code " ++ str_int (status_code res) ++ newline_tab
   ++ dquote ++ text res ++ dquote)%string.

Section MathML2PetriNet.

(** [requests.get(url)] and [requests.put(url, json = ...)]: a response,
    or the exception of a request that got none. *)
Variable requests_get : string -> result response.
Variable requests_put : string -> list string -> result response.

Definition convert_mathml2petrinet (model_mathml : option (list string)) : M json :=
  let model_petrinet_amr := empty_dict in
  match model_mathml with
  | None =>
      let url := (REST_URL_SKEMA ++ "/ping")%string in
      res <- St.lift (requests_get url) ;;
      St.print (status_line res) ;;;
      St.ret model_petrinet_amr
  | Some mathml =>
      let url := (REST_URL_SKEMA ++ "/mathml/acset")%string in
      res <- St.lift (requests_put url mathml) ;;
      St.print (status_line res) ;;;
      if status_code res =? 200
      then (model_petrinet_amr <- St.lift (res_json res) ;; St.ret model_petrinet_amr)
      else St.ret model_petrinet_amr
  end.

End MathML2PetriNet.

(** ** draw_graph (lines 73-198) *)

(** The calls into pandas, networkx, matplotlib and numpy, by the lines
    that make them.  Each may raise; the order in which a Python [set]
    enumerates the node and edge types is theirs to choose. *)
Record Plotting : Type := {
  graph : Type;
  layout : Type;
  typemap : Type;
  axes : Type;
  figure : Type;
  handles : Type;
  (* lines 114-116: G from the rows of df_nodes and df_edges *)
  nx_DiGraph : list pydict -> list pydict -> result graph;
  (* lines 123-132 *)
  nx_shell_layout : graph -> result layout;
  (* lines 136-142: map_node_type and node_type *)
  node_type_map : graph -> result (typemap * list Z);
  (* lines 145-146: map_edge_type and edge_type *)
  edge_type_map : graph -> result (typemap * list Z);
  (* line 149 *)
  plt_subplots : figure * axes;
  (* lines 151-165 *)
  draw_networkx_nodes : axes -> graph -> layout -> typemap -> list Z -> result handles;
  (* lines 167-179 *)
  draw_networkx_edges : axes -> graph -> layout -> typemap -> result unit;
  (* lines 181-187 *)
  draw_networkx_labels : axes -> graph -> layout -> result unit;
  (* lines 189-192 *)
  set_limits : axes -> layout -> result unit;
  (* line 195 *)
  ax_legend : axes -> handles -> typemap -> typemap -> result unit
}.

Definition format_is (model_format : option string) (name : string) : bool :=
  match model_format with
  | Some f => String.eqb f name
  | None => false
  end.

(** The reshape of lines 101-111 on the document behind a reference. *)
Definition amr_reshape (model : loc) : M (list pydict * list pydict) :=
  m <- St.deref model ;;
  St.lift (amr_frames m).

Definition acset_reshape (model : loc) : M (list pydict * list pydict) :=
  m <- St.deref model ;;
  St.lift (acset_frames m).

Section DrawGraph.

Variable P : Plotting.

(** Lines 78-111: the local variables [df_nodes] and [df_edges], bound
    only if one of the two formats is recognised. *)
Definition build_frames (model : loc) (model_format : option string)
  : M (option (list pydict * list pydict)) :=
  frames <- (if format_is model_format "acset"
             then (fr <- acset_reshape model ;; St.ret (Some fr))
             else St.ret None) ;;
  if format_is model_format "AMR"
  then (fr <- amr_reshape model ;; St.ret (Some fr))
  else St.ret frames.

(** Lines 113-195: everything between the reshape and the save.  It
    returns the local variable [fig], bound only when [ax] was [None]. *)
Definition render (frames : option (list pydict * list pydict))
    (ax : option (axes P)) (node_type edge_type : option (list Z)) (legend : bool)
  : M (option (figure P)) :=
  df_nodes <- St.local "df_nodes" (option_map fst frames) ;;
  df_edges <- St.local "df_edges" (option_map snd frames) ;;
  G <- St.lift (nx_DiGraph P df_nodes df_edges) ;;
  pos <- St.lift (nx_shell_layout P G) ;;
  nt <- match node_type with
        | None => r <- St.lift (node_type_map P G) ;; St.ret (Some (fst r), snd r)
        | Some l => St.ret (None, l)
        end ;;
  let '(map_node_type, node_type) := nt in
  et <- match edge_type with
        | None => r <- St.lift (edge_type_map P G) ;; St.ret (Some (fst r), snd r)
        | Some l => St.ret (None, l)
        end ;;
  let '(map_edge_type, edge_type) := et in
  let '(fig, ax) := match ax with
                    | None => (Some (fst (plt_subplots P)), snd (plt_subplots P))
                    | Some a => (None, a)
                    end in
  mnt <- St.local "map_node_type" map_node_type ;;
  h <- St.lift (draw_networkx_nodes P ax G pos mnt node_type) ;;
  met <- St.local "map_edge_type" map_edge_type ;;
  St.lift (draw_networkx_edges P ax G pos met) ;;;
  St.lift (draw_networkx_labels P ax G pos) ;;;
  St.lift (set_limits P ax pos) ;;;
  (if legend then St.lift (ax_legend P ax h mnt met) else St.ret tt) ;;;
  St.ret fig.

(** Lines 197-198. *)
Definition save (fig : option (figure P)) (save_path : option string) : M unit :=
  match save_path with
  | Some path => _ <- St.local "fig" fig ;; St.write_image path 150
  | None => St.ret tt
  end.

Definition draw_graph (model : loc) (ax : option (axes P))
    (node_type edge_type : option (list Z)) (save_path : option string)
    (legend : bool) (model_format : option string) : M unit :=
  frames <- build_frames model model_format ;;
  fig <- render frames ax node_type edge_type legend ;;
  save fig save_path.

End DrawGraph.

(** ** AMR model documents *)

(** A transition record as the schema describes it: an identifier, a list
    of input state identifiers and a list of output state identifiers. *)
Record transition : Type := {
  t_id : json;
  t_input : list json;
  t_output : list json
}.

Definition state_record (s sid : json) : Prop :=
  getitem s "id" = Ok sid.

Definition transition_record (t : json) (tr : transition) : Prop :=
  getitem t "id" = Ok (t_id tr) /\
  getitem t "input" = Ok (JArr (t_input tr)) /\
  getitem t "output" = Ok (JArr (t_output tr)).

(** [model] is a document whose nested object lists state records with the
    identifiers [states] and transition records that read as [transitions]. *)
Definition amr_document (model : json) (states : list json)
    (transitions : list transition) : Prop :=
  exists m sl tl,
    getitem model "model" = Ok m /\
    getitem m "states" = Ok (JArr sl) /\
    getitem m "transitions" = Ok (JArr tl) /\
    Forall2 state_record sl states /\
    Forall2 transition_record tl transitions.

(** Every input and output list references declared state identifiers only. *)
Definition references_declared (states : list json)
    (transitions : list transition) : Prop :=
  forall tr, In tr transitions ->
    incl (t_input tr) states /\ incl (t_output tr) states.

(** The rows the two comprehensions produce on such a document. *)
Definition node_rows (states : list json) (transitions : list transition)
  : list pydict :=
  map (fun s => node_row s "S") states
  ++ map (fun tr => node_row (t_id tr) "T") transitions.

Definition input_rows (transitions : list transition) : list pydict :=
  flat_map (fun tr => map (fun s => edge_row s (t_id tr) "I") (t_input tr)) transitions.

Definition output_rows (transitions : list transition) : list pydict :=
  flat_map (fun tr => map (fun s => edge_row (t_id tr) s "O") (t_output tr)) transitions.

Definition edge_rows (transitions : list transition) : list pydict :=
  input_rows transitions ++ output_rows transitions.

(** A column of a frame: the value each row holds under [name]. *)
Definition column (name : string) (rows : list pydict) : list (result json) :=
  map (fun r => dict_get r name) rows.

(** ** What a computation may do to the world *)

(** [reads_only m]: running [m] leaves the world as it found it. *)
Definition reads_only {A} (m : M A) : Prop :=
  forall w, fst (m w) = w.

(** [keeps_heap m]: running [m] leaves every object in the heap as it is. *)
Definition keeps_heap {A} (m : M A) : Prop :=
  forall w, heap (fst (m w)) = heap w.

(** [returns m Q]: whenever [m] returns normally, its value satisfies [Q]. *)
Definition returns {A} (m : M A) (Q : A -> Prop) : Prop :=
  forall w w' a, m w = (w', Ok a) -> Q a.

(** ** The SIR document of the notebook, as a sample *)

Definition sir_state (name : string) : json :=
  JObj [("id", JStr name); ("name", JStr name)].

Definition sir_transition (name : string) (input output : list string) : json :=
  JObj [("id", JStr name);
        ("input", JArr (map JStr input));
        ("output", JArr (map JStr output));
        ("grounding", JNull)].

Definition sir_model : json :=
  JObj [("name", JStr "mathml model");
        ("schema_name", JStr "PetriNet");
        ("model",
          JObj [("states", JArr [sir_state "S"; sir_state "I"; sir_state "R"]);
                ("transitions",
                  JArr [sir_transition "t0" ["I"; "S"] ["I"; "I"];
                        sir_transition "t1" ["I"] ["R"]])]);
        ("semantics", JObj [("ode", JObj [("rates", JArr [JFloat (1 # 2)])])])].

Definition sir_states : list json := [JStr "S"; JStr "I"; JStr "R"].

Definition sir_transitions : list transition :=
  [ {| t_id := JStr "t0"; t_input := [JStr "I"; JStr "S"];
       t_output := [JStr "I"; JStr "I"] |};
    {| t_id := JStr "t1"; t_input := [JStr "I"]; t_output := [JStr "R"] |} ].

(** A document that breaks the schema: the input list of its transition
    names a state that is not declared. *)
Definition dangling_model : json :=
  JObj [("model",
          JObj [("states", JArr [sir_state "S"]);
                ("transitions", JArr [sir_transition "t0" ["X"] ["S"]])])].

(** A world whose heap holds [model] at every location, with nothing
    printed or written yet. *)
Definition world_of (model : json) : world :=
  {| heap := fun _ => model; files := []; stdout := [] |}.

(** ** Stand-ins for the libraries, for the examples *)

(** A stand-in converter for the examples: it wraps its input in a [math]
    element and accepts everything but the empty string. *)
Definition sample_convert (eq : string) : result string :=
  match eq with
  | EmptyString => Raise (LibraryError "empty equation")
  | _ => Ok ("<math>" ++ eq ++ "</math>")%string
  end.

(** A stand-in for [html.unescape] that resolves nothing. *)
Definition sample_unescape (m : string) : string := m.

(** Stand-ins for the service: one that answers every conversion request
    with a server error, one that answers the ping. *)
Definition failing_put (url : string) (mathml : list string) : result response :=
  Ok {| res_url := url; status_code := 500; text := "Internal Server Error";
        res_json := Raise (LibraryError "JSONDecodeError") |}.

Definition answering_get (url : string) : result response :=
  Ok {| res_url := url; status_code := 200;
        text := "The SKEMA Rust web services are running.";
        res_json := Raise (LibraryError "JSONDecodeError") |}.

Definition server_error : response :=
  {| res_url := (REST_URL_SKEMA ++ "/mathml/acset")%string; status_code := 500;
     text := "Internal Server Error";
     res_json := Raise (LibraryError "JSONDecodeError") |}.

Definition pong : response :=
  {| res_url := (REST_URL_SKEMA ++ "/ping")%string; status_code := 200;
     text := "The SKEMA Rust web services are running.";
     res_json := Raise (LibraryError "JSONDecodeError") |}.

(** A plotting back end in which every call succeeds and returns nothing
    of interest. *)
Definition sample_plotting : Plotting :=
  {| graph := unit; layout := unit; typemap := unit; axes := unit;
     figure := unit; handles := unit;
     nx_DiGraph := fun _ _ => Ok tt;
     nx_shell_layout := fun _ => Ok tt;
     node_type_map := fun _ => Ok (tt, [0; 0; 0; 1; 1]);
     edge_type_map := fun _ => Ok (tt, [0; 0; 0; 1; 1; 1]);
     plt_subplots := (tt, tt);
     draw_networkx_nodes := fun _ _ _ _ _ => Ok tt;
     draw_networkx_edges := fun _ _ _ _ => Ok tt;
     draw_networkx_labels := fun _ _ _ => Ok tt;
     set_limits := fun _ _ => Ok tt;
     ax_legend := fun _ _ _ _ => Ok tt |}.

(** ** ACSet model documents *)

(** An arc of the tables [I] and [O]: the 1-based index of its state (the
    field [is] or [os]) and of its transition ([it] or [ot]). *)
Record arc : Type := {
  arc_state : Z;
  arc_transition : Z
}.

Definition input_arc_record (d : json) (a : arc) : Prop :=
  getitem d "is" = Ok (JNum (arc_state a)) /\
  getitem d "it" = Ok (JNum (arc_transition a)).

Definition output_arc_record (d : json) (a : arc) : Prop :=
  getitem d "os" = Ok (JNum (arc_state a)) /\
  getitem d "ot" = Ok (JNum (arc_transition a)).

(** [model] is a document with the four tables [S], [T], [I] and [O]: the
    states are named [snames], the transitions [tnames], and the arcs read
    as [inputs] and [outputs]. *)
Definition acset_document (model : json) (snames tnames : list json)
    (inputs outputs : list arc) : Prop :=
  exists sl tl il ol,
    getitem model "S" = Ok (JArr sl) /\
    getitem model "T" = Ok (JArr tl) /\
    getitem model "I" = Ok (JArr il) /\
    getitem model "O" = Ok (JArr ol) /\
    Forall2 (fun s name => getitem s "sname" = Ok name) sl snames /\
    Forall2 (fun t name => getitem t "tname" = Ok name) tl tnames /\
    Forall2 input_arc_record il inputs /\
    Forall2 output_arc_record ol outputs.

(** [z] is one of the keys [1 .. n]. *)
Definition index_in_range (n : nat) (z : Z) : bool :=
  (1 <=? z) && (z <=? Z.of_nat n).

(** Every arc indexes an existing state and an existing transition. *)
Definition arcs_in_range (snames tnames : list json) (arcs : list arc) : Prop :=
  forall a, In a arcs ->
    index_in_range (List.length snames) (arc_state a) = true /\
    index_in_range (List.length tnames) (arc_transition a) = true.

(** The name stored under the key [z]. *)
Definition name_at (names : list json) (z : Z) : json :=
  nth (Z.to_nat (z - 1)) names JNull.

(** The first index of [zs], if any, that is not a key of a table of [n]
    names. *)
Definition first_missing (n : nat) (zs : list Z) : option Z :=
  find (fun z => negb (index_in_range n z)) zs.

(** The rows of the ACSet edge list when every index is a key. *)
Definition acset_edge_rows (snames tnames : list json) (inputs outputs : list arc)
  : list pydict :=
  map (fun a => acset_edge_row (name_at snames (arc_state a),
                                name_at tnames (arc_transition a)) "S" "T" "I")
    inputs
  ++ map (fun a => acset_edge_row (name_at tnames (arc_transition a),
                                   name_at snames (arc_state a)) "T" "S" "O")
       outputs.

(** ** The cells that run the conversion on a model (lines 204-223, 237-260) *)

(** Lines 209-213; the raw strings keep their backslashes. *)
Definition sir_latex : list string :=
  [ "\frac{d S}{d t} = -\beta S I";
    "\frac{d I}{d t} = \beta S I - \gamma I";
    "\frac{d R}{d t} = \gamma I" ].

Section Notebook.

Variable latex2mathml_convert : string -> result string.
Variable html_unescape : string -> string.
Variable requests_get : string -> result response.
Variable requests_put : string -> list string -> result response.
Variable P : Plotting.

(** The three cells run for a model, one after the other as a script
    runs them: LaTeX to MathML, MathML to AMR, and the drawing of the AMR.
    [slot] is where the dictionary [models] keeps
    [models[model_name]['latex_mathml_AMR']], the object handed to
    [draw_graph]. *)
Definition run_model (model_latex : list string) (slot : loc) : M unit :=
  latex_mathml <- St.lift (convert_latex2mathml latex2mathml_convert html_unescape
                             (Some model_latex)) ;;
  latex_mathml_AMR <- convert_mathml2petrinet requests_get requests_put
                        (Some latex_mathml) ;;
  St.assign slot latex_mathml_AMR ;;;
  draw_graph P slot None None None None true (Some "AMR").

End Notebook.

(** ** Further properties of computations *)

(** [keeps_files m]: running [m] writes no file. *)
Definition keeps_files {A} (m : M A) : Prop :=
  forall w, files (fst (m w)) = files w.

(** ** Further stand-ins, for the examples *)

(** The SIR net as an ACSet. *)
Definition sir_acset : json :=
  JObj [("S", JArr [JObj [("sname", JStr "S")]; JObj [("sname", JStr "I")];
                    JObj [("sname", JStr "R")]]);
        ("T", JArr [JObj [("tname", JStr "inf")]; JObj [("tname", JStr "rec")]]);
        ("I", JArr [JObj [("it", JNum 1); ("is", JNum 1)];
                    JObj [("it", JNum 1); ("is", JNum 2)];
                    JObj [("it", JNum 2); ("is", JNum 2)]]);
        ("O", JArr [JObj [("ot", JNum 1); ("os", JNum 2)];
                    JObj [("ot", JNum 1); ("os", JNum 2)];
                    JObj [("ot", JNum 2); ("os", JNum 3)]])].

Definition sir_snames : list json := [JStr "S"; JStr "I"; JStr "R"].
Definition sir_tnames : list json := [JStr "inf"; JStr "rec"].

Definition sir_inputs : list arc :=
  [ {| arc_state := 1; arc_transition := 1 |};
    {| arc_state := 2; arc_transition := 1 |};
    {| arc_state := 2; arc_transition := 2 |} ].

Definition sir_outputs : list arc :=
  [ {| arc_state := 2; arc_transition := 1 |};
    {| arc_state := 2; arc_transition := 1 |};
    {| arc_state := 3; arc_transition := 2 |} ].

(** The same net with an input arc from a state numbered 0. *)
Definition zero_based_acset : json :=
  JObj [("S", JArr [JObj [("sname", JStr "S")]]);
        ("T", JArr [JObj [("tname", JStr "inf")]]);
        ("I", JArr [JObj [("it", JNum 1); ("is", JNum 0)]]);
        ("O", JArr [])].

(** A service that answers every conversion request with the SIR document. *)
Definition serving_put (url : string) (mathml : list string) : result response :=
  Ok {| res_url := url; status_code := 200; text := "{...}";
        res_json := Ok sir_model |}.

Definition served : response :=
  {| res_url := (REST_URL_SKEMA ++ "/mathml/acset")%string; status_code := 200;
     text := "{...}"; res_json := Ok sir_model |}.

(** A service that cannot be reached. *)
Definition unreachable_get (url : string) : result response :=
  Raise (LibraryError "ConnectionError").

Definition unreachable_put (url : string) (mathml : list string) : result response :=
  Raise (LibraryError "ConnectionError").

(** ** Comprehensions over well-formed records *)

Lemma traverse_Forall2 {A B C} (f : A -> result B) (g : C -> B) l l' :
  Forall2 (fun x y => f x = Ok (g y)) l l' ->
  Res.traverse f l = Ok (map g l').
Proof.
  induction 1 as [|x y l l' Hxy _ IH]; simpl.
  - reflexivity.
  - rewrite Hxy; simpl. rewrite IH. reflexivity.
Qed.

Lemma traverse_total {A B} (f : A -> result B) (g : A -> B) l :
  (forall x, f x = Ok (g x)) ->
  Res.traverse f l = Ok (map g l).
Proof.
  intros Hf. induction l as [|x l IH]; simpl.
  - reflexivity.
  - rewrite Hf; simpl. rewrite IH. reflexivity.
Qed.

Lemma traverse2_Forall2 {A B C D} (inner : A -> result (list B))
    (f : A -> B -> result C) (h : D -> list B) (g : D -> B -> C) l l' :
  Forall2 (fun x y => inner x = Ok (h y) /\ forall b, f x b = Ok (g y b)) l l' ->
  Res.traverse2 inner f l = Ok (flat_map (fun y => map (g y) (h y)) l').
Proof.
  induction 1 as [|x y l l' [Hin Hf] _ IH]; simpl.
  - reflexivity.
  - rewrite Hin; simpl.
    rewrite (traverse_total (f x) (g y) (h y) Hf); simpl.
    rewrite IH. reflexivity.
Qed.

Lemma amr_states_document model states transitions :
  amr_document model states transitions ->
  exists sl, amr_states model = Ok sl /\ Forall2 state_record sl states.
Proof.
  intros (m & sl & tl & Hm & Hs & _ & Hsl & _).
  exists sl. split; [|assumption].
  unfold amr_states. rewrite Hm; simpl. rewrite Hs. reflexivity.
Qed.

Lemma amr_transitions_document model states transitions :
  amr_document model states transitions ->
  exists tl, amr_transitions model = Ok tl /\ Forall2 transition_record tl transitions.
Proof.
  intros (m & sl & tl & Hm & _ & Ht & _ & Htl).
  exists tl. split; [|assumption].
  unfold amr_transitions. rewrite Hm; simpl. rewrite Ht. reflexivity.
Qed.

Lemma amr_node_list_document model states transitions :
  amr_document model states transitions ->
  amr_node_list model = Ok (node_rows states transitions).
Proof.
  intros Hdoc.
  destruct (amr_states_document _ _ _ Hdoc) as (sl & Hs & Hsl).
  destruct (amr_transitions_document _ _ _ Hdoc) as (tl & Ht & Htl).
  unfold amr_node_list, node_rows. rewrite Hs; simpl.
  rewrite (traverse_Forall2 _ (fun s => node_row s "S") sl states); simpl.
  - rewrite Ht; simpl.
    rewrite (traverse_Forall2 _ (fun tr => node_row (t_id tr) "T") tl transitions);
      [reflexivity|].
    eapply Forall2_impl; [|exact Htl].
    intros t tr (Hid & _). rewrite Hid. reflexivity.
  - eapply Forall2_impl; [|exact Hsl].
    intros s sid Hid. unfold state_record in Hid. rewrite Hid. reflexivity.
Qed.

Lemma amr_edge_list_document model states transitions :
  amr_document model states transitions ->
  amr_edge_list model = Ok (edge_rows transitions).
Proof.
  intros Hdoc.
  destruct (amr_transitions_document _ _ _ Hdoc) as (tl & Ht & Htl).
  unfold amr_edge_list, edge_rows, input_rows, output_rows. rewrite Ht; simpl.
  rewrite (traverse2_Forall2 _ _ t_input (fun tr s => edge_row s (t_id tr) "I")
             tl transitions); simpl.
  - rewrite (traverse2_Forall2 _ _ t_output (fun tr s => edge_row (t_id tr) s "O")
               tl transitions); [reflexivity|].
    eapply Forall2_impl; [|exact Htl].
    intros t tr (Hid & _ & Hout). rewrite Hout, Hid. split; reflexivity.
  - eapply Forall2_impl; [|exact Htl].
    intros t tr (Hid & Hinp & _). rewrite Hinp, Hid. split; reflexivity.
Qed.

Lemma amr_frames_document model states transitions :
  amr_document model states transitions ->
  amr_frames model = Ok (node_rows states transitions, edge_rows transitions).
Proof.
  intros Hdoc. unfold amr_frames.
  rewrite (amr_node_list_document _ _ _ Hdoc); simpl.
  rewrite (amr_edge_list_document _ _ _ Hdoc). reflexivity.
Qed.

Lemma build_frames_amr_document model w states transitions :
  amr_document (heap w model) states transitions ->
  build_frames model (Some "AMR") w
  = (w, Ok (Some (node_rows states transitions, edge_rows transitions))).
Proof.
  intros Hdoc. unfold build_frames, amr_reshape, St.bind, St.deref, St.lift, St.ret.
  simpl. rewrite (amr_frames_document _ _ _ Hdoc). reflexivity.
Qed.

Lemma sir_model_document : amr_document sir_model sir_states sir_transitions.
Proof.
  exists (JObj [("states", JArr [sir_state "S"; sir_state "I"; sir_state "R"]);
                ("transitions",
                  JArr [sir_transition "t0" ["I"; "S"] ["I"; "I"];
                        sir_transition "t1" ["I"] ["R"]])]).
  exists [sir_state "S"; sir_state "I"; sir_state "R"].
  exists [sir_transition "t0" ["I"; "S"] ["I"; "I"]; sir_transition "t1" ["I"] ["R"]].
  repeat split; repeat constructor.
Qed.

Lemma sir_references_declared : references_declared sir_states sir_transitions.
Proof.
  intros tr [<-|[<-|[]]]; split; intros s Hs; simpl in *; intuition auto.
Qed.

(** ** Membership in the rows *)

Lemma edge_rows_inv transitions e :
  In e (edge_rows transitions) ->
  exists tr s, In tr transitions /\
    ((In s (t_input tr) /\ e = edge_row s (t_id tr) "I") \/
     (In s (t_output tr) /\ e = edge_row (t_id tr) s "O")).
Proof.
  unfold edge_rows, input_rows, output_rows. intros He.
  apply in_app_or in He. destruct He as [He|He];
    apply in_flat_map in He; destruct He as (tr & Htr & He);
    apply in_map_iff in He; destruct He as (s & <- & Hs);
    exists tr, s; auto.
Qed.

Lemma state_id_in_node_rows states transitions s :
  In s states -> In (Ok s) (column "id" (node_rows states transitions)).
Proof.
  intros Hs. unfold column, node_rows.
  apply in_map_iff. exists (node_row s "S"). split; [reflexivity|].
  apply in_or_app. left.
  apply (in_map (fun s => node_row s "S")). exact Hs.
Qed.

Lemma transition_id_in_node_rows states transitions tr :
  In tr transitions -> In (Ok (t_id tr)) (column "id" (node_rows states transitions)).
Proof.
  intros Htr. unfold column, node_rows.
  apply in_map_iff. exists (node_row (t_id tr) "T"). split; [reflexivity|].
  apply in_or_app. right.
  apply (in_map (fun tr => node_row (t_id tr) "T")). exact Htr.
Qed.

(** ** The reshape on AMR documents *)

(** C1: for a document with N state records and M transition records whose
    input and output lists reference only declared state identifiers, the
    node list [draw_graph] builds for the AMR format has N + M rows, and
    the edge list has as many rows as the input lists and the output lists
    have entries together. *)
Theorem draw_graph_amr_counts model w states transitions :
  amr_document (heap w model) states transitions ->
  references_declared states transitions ->
  exists df_nodes df_edges,
    build_frames model (Some "AMR") w = (w, Ok (Some (df_nodes, df_edges))) /\
    List.length df_nodes = (List.length states + List.length transitions)%nat /\
    List.length df_edges
    = (list_sum (map (fun tr => List.length (t_input tr)) transitions)
       + list_sum (map (fun tr => List.length (t_output tr)) transitions))%nat.
Proof.
  intros Hdoc _.
  exists (node_rows states transitions), (edge_rows transitions).
  split; [apply build_frames_amr_document; exact Hdoc|]. split.
  - unfold node_rows. rewrite length_app, !length_map. reflexivity.
  - unfold edge_rows, input_rows, output_rows.
    rewrite length_app, !length_flat_map. f_equal;
      f_equal; apply map_ext; intros tr; apply length_map.
Qed.

Lemma draw_graph_amr_counts_sir :
  exists df_nodes df_edges,
    build_frames 0%nat (Some "AMR") (world_of sir_model)
    = (world_of sir_model, Ok (Some (df_nodes, df_edges))) /\
    List.length df_nodes = (3 + 2)%nat /\
    List.length df_edges = ((2 + (1 + 0)) + (2 + (1 + 0)))%nat.
Proof.
  exact (draw_graph_amr_counts 0%nat (world_of sir_model) sir_states sir_transitions
           sir_model_document sir_references_declared).
Defined.

(** C3: on such a document, every row of the edge list has a source and a
    target that both occur in the [id] column of the node list. *)
Theorem draw_graph_amr_no_dangling model w states transitions :
  amr_document (heap w model) states transitions ->
  references_declared states transitions ->
  exists df_nodes df_edges,
    build_frames model (Some "AMR") w = (w, Ok (Some (df_nodes, df_edges))) /\
    forall e, In e df_edges ->
      exists source target,
        dict_get e "source" = Ok source /\
        dict_get e "target" = Ok target /\
        In (Ok source) (column "id" df_nodes) /\
        In (Ok target) (column "id" df_nodes).
Proof.
  intros Hdoc Hrefs.
  exists (node_rows states transitions), (edge_rows transitions).
  split; [apply build_frames_amr_document; exact Hdoc|].
  intros e He. apply edge_rows_inv in He.
  destruct He as (tr & s & Htr & [[Hs ->]|[Hs ->]]);
    destruct (Hrefs tr Htr) as [Hin Hout].
  - exists s, (t_id tr). repeat split.
    + apply state_id_in_node_rows. apply Hin. exact Hs.
    + apply transition_id_in_node_rows. exact Htr.
  - exists (t_id tr), s. repeat split.
    + apply transition_id_in_node_rows. exact Htr.
    + apply state_id_in_node_rows. apply Hout. exact Hs.
Qed.

Lemma draw_graph_amr_no_dangling_sir :
  exists df_nodes df_edges,
    build_frames 0%nat (Some "AMR") (world_of sir_model)
    = (world_of sir_model, Ok (Some (df_nodes, df_edges))) /\
    forall e, In e df_edges ->
      exists source target,
        dict_get e "source" = Ok source /\
        dict_get e "target" = Ok target /\
        In (Ok source) (column "id" df_nodes) /\
        In (Ok target) (column "id" df_nodes).
Proof.
  exact (draw_graph_amr_no_dangling 0%nat (world_of sir_model) sir_states
           sir_transitions sir_model_document sir_references_declared).
Defined.

(** C6: in the edge list built for the AMR format every row has edge type
    ['I'] or ['O']; a row of type ['I'] goes from a state identifier to a
    transition identifier, a row of type ['O'] from a transition identifier
    to a state identifier. *)
Theorem draw_graph_amr_edge_direction model w states transitions :
  amr_document (heap w model) states transitions ->
  references_declared states transitions ->
  exists df_nodes df_edges,
    build_frames model (Some "AMR") w = (w, Ok (Some (df_nodes, df_edges))) /\
    forall e, In e df_edges ->
      exists source target ty,
        dict_get e "source" = Ok source /\
        dict_get e "target" = Ok target /\
        dict_get e "edge_type" = Ok (JStr ty) /\
        (ty = "I" \/ ty = "O") /\
        (ty = "I" -> In source states /\ In target (map t_id transitions)) /\
        (ty = "O" -> In source (map t_id transitions) /\ In target states).
Proof.
  intros Hdoc Hrefs.
  exists (node_rows states transitions), (edge_rows transitions).
  split; [apply build_frames_amr_document; exact Hdoc|].
  intros e He. apply edge_rows_inv in He.
  destruct He as (tr & s & Htr & [[Hs ->]|[Hs ->]]);
    destruct (Hrefs tr Htr) as [Hin Hout].
  - exists s, (t_id tr), "I". repeat split; auto; try discriminate.
    apply in_map. exact Htr.
  - exists (t_id tr), s, "O". repeat split; auto; try discriminate.
    apply in_map. exact Htr.
Qed.

Lemma draw_graph_amr_edge_direction_sir :
  exists df_nodes df_edges,
    build_frames 0%nat (Some "AMR") (world_of sir_model)
    = (world_of sir_model, Ok (Some (df_nodes, df_edges))) /\
    forall e, In e df_edges ->
      exists source target ty,
        dict_get e "source" = Ok source /\
        dict_get e "target" = Ok target /\
        dict_get e "edge_type" = Ok (JStr ty) /\
        (ty = "I" \/ ty = "O") /\
        (ty = "I" -> In source sir_states /\ In target (map t_id sir_transitions)) /\
        (ty = "O" -> In source (map t_id sir_transitions) /\ In target sir_states).
Proof.
  exact (draw_graph_amr_edge_direction 0%nat (world_of sir_model) sir_states
           sir_transitions sir_model_document sir_references_declared).
Defined.

(** ** Frame lemmas for the monad *)

Lemma bind_eq {A B} (m : M A) (k : A -> M B) w :
  St.bind m k w
  = match m w with
    | (w', Ok a) => k a w'
    | (w', Raise e) => (w', Raise e)
    end.
Proof. reflexivity. Qed.

Lemma reads_only_ret {A} (a : A) : reads_only (St.ret a).
Proof. intros w. reflexivity. Qed.

Lemma reads_only_lift {A} (r : result A) : reads_only (St.lift r).
Proof. intros w. reflexivity. Qed.

Lemma reads_only_deref l : reads_only (St.deref l).
Proof. intros w. reflexivity. Qed.

Lemma reads_only_local {A} name (v : option A) : reads_only (St.local name v).
Proof. intros w. destruct v; reflexivity. Qed.

Lemma reads_only_bind {A B} (m : M A) (k : A -> M B) :
  reads_only m -> (forall a, reads_only (k a)) -> reads_only (St.bind m k).
Proof.
  intros Hm Hk w. rewrite bind_eq. specialize (Hm w).
  destruct (m w) as [w' [a|e]]; simpl in Hm; subst w'.
  - apply Hk.
  - reflexivity.
Qed.

Lemma reads_only_keeps_heap {A} (m : M A) : reads_only m -> keeps_heap m.
Proof. intros Hm w. rewrite Hm. reflexivity. Qed.

Lemma keeps_heap_print line : keeps_heap (St.print line).
Proof. intros w. reflexivity. Qed.

Lemma keeps_heap_write_image path dpi : keeps_heap (St.write_image path dpi).
Proof. intros w. reflexivity. Qed.

Lemma keeps_heap_bind {A B} (m : M A) (k : A -> M B) :
  keeps_heap m -> (forall a, keeps_heap (k a)) -> keeps_heap (St.bind m k).
Proof.
  intros Hm Hk w. rewrite bind_eq. specialize (Hm w).
  destruct (m w) as [w' [a|e]]; simpl in Hm.
  - rewrite Hk. exact Hm.
  - exact Hm.
Qed.

Lemma returns_ret {A} (a : A) (Q : A -> Prop) : Q a -> returns (St.ret a) Q.
Proof. intros HQ w w' a' [= _ <-]. exact HQ. Qed.

Lemma returns_bind {A B} (m : M A) (k : A -> M B) (Q : B -> Prop) :
  (forall a, returns (k a) Q) -> returns (St.bind m k) Q.
Proof.
  intros Hk w w' b. rewrite bind_eq.
  destruct (m w) as [w1 [a|e]]; [apply Hk|discriminate].
Qed.

(** Breaks a computation into its steps, for any of the three properties. *)
Ltac step_through :=
  repeat first
    [ apply reads_only_ret | apply reads_only_lift | apply reads_only_deref
    | apply reads_only_local
    | apply reads_only_bind; [|intros]
    | apply keeps_heap_print | apply keeps_heap_write_image
    | apply keeps_heap_bind; [|intros]
    | apply returns_bind; intros
    | match goal with
      | |- context [match ?x with _ => _ end] =>
          match type of x with
          | option _ => destruct x
          | bool => destruct x
          | prod _ _ => destruct x
          end
      end ].

Lemma amr_reshape_reads_only model : reads_only (amr_reshape model).
Proof. unfold amr_reshape. step_through. Qed.

Lemma acset_reshape_reads_only model : reads_only (acset_reshape model).
Proof. unfold acset_reshape. step_through. Qed.

Lemma build_frames_reads_only model model_format :
  reads_only (build_frames model model_format).
Proof.
  unfold build_frames.
  apply reads_only_bind; [|intros frames].
  - destruct (format_is model_format "acset").
    + apply reads_only_bind; [apply acset_reshape_reads_only|intros fr].
      apply reads_only_ret.
    + apply reads_only_ret.
  - destruct (format_is model_format "AMR").
    + apply reads_only_bind; [apply amr_reshape_reads_only|intros fr].
      apply reads_only_ret.
    + apply reads_only_ret.
Qed.

Lemma render_reads_only P frames ax node_type edge_type legend :
  reads_only (render P frames ax node_type edge_type legend).
Proof. unfold render. step_through. Qed.

Lemma render_given_axes_binds_no_fig P frames a node_type edge_type legend :
  returns (render P frames (Some a) node_type edge_type legend) (fun fig => fig = None).
Proof. unfold render. step_through; apply returns_ret; reflexivity. Qed.

Lemma save_keeps_heap P fig save_path : keeps_heap (save P fig save_path).
Proof.
  unfold save. destruct save_path as [path|].
  - apply keeps_heap_bind; [|intros; apply keeps_heap_write_image].
    apply reads_only_keeps_heap, reads_only_local.
  - apply reads_only_keeps_heap, reads_only_ret.
Qed.

(** ** The reshape run twice, and the model document after a call *)

(** C4: running the AMR reshape of [draw_graph] a second time, on the world
    the first run left, gives the same outcome as the first run: the same
    node list and the same edge list, row for row. *)
Theorem build_frames_amr_twice model w :
  let first := build_frames model (Some "AMR") w in
  let second := build_frames model (Some "AMR") (fst first) in
  snd second = snd first.
Proof.
  cbv zeta. rewrite (build_frames_reads_only model (Some "AMR") w). reflexivity.
Qed.

(** C8: [draw_graph] leaves the model document it is given, and every
    other object, as it was before the call, whatever its arguments and
    whether it returns or raises. *)
Theorem draw_graph_keeps_model P model ax node_type edge_type save_path legend
    model_format w :
  heap (fst (draw_graph P model ax node_type edge_type save_path legend
               model_format w)) = heap w.
Proof.
  revert w. change (keeps_heap (draw_graph P model ax node_type edge_type
                                  save_path legend model_format)).
  unfold draw_graph.
  apply keeps_heap_bind;
    [apply reads_only_keeps_heap, build_frames_reads_only|intros frames].
  apply keeps_heap_bind;
    [apply reads_only_keeps_heap, render_reads_only|intros fig].
  apply save_keeps_heap.
Qed.

(** ** convert_latex2mathml *)

Section Latex2MathMLFacts.

Variable latex2mathml_convert : string -> result string.
Variable html_unescape : string -> string.

(** The loop over the indices of the part [todo] still to visit appends
    the unescaped conversions of [todo], in order. *)
Lemma latex_loop_seq todo : forall done mathml model_mathml,
  Forall2 (fun eq m => latex2mathml_convert eq = Ok m) todo mathml ->
  latex_loop latex2mathml_convert html_unescape (done ++ todo)
    (seq (List.length done) (List.length todo)) model_mathml
  = Ok (model_mathml ++ map html_unescape mathml).
Proof.
  induction todo as [|eq_i todo IH]; intros done mathml model_mathml Hconv.
  - inversion Hconv; subst. simpl. rewrite app_nil_r. reflexivity.
  - inversion Hconv as [|? m ? mathml' Hm Hrest]; subst. simpl.
    rewrite nth_error_app2 by apply Nat.le_refl.
    rewrite Nat.sub_diag. simpl. rewrite Hm. simpl.
    replace (done ++ eq_i :: todo) with ((done ++ [eq_i]) ++ todo)
      by (rewrite <- app_assoc; reflexivity).
    replace (S (List.length done)) with (List.length (done ++ [eq_i]))
      by (rewrite length_app; simpl; apply Nat.add_1_r).
    rewrite (IH (done ++ [eq_i]) mathml' _ Hrest).
    rewrite <- app_assoc. reflexivity.
Qed.

Lemma convertible_Forall2 model_latex :
  Forall (fun eq => exists m, latex2mathml_convert eq = Ok m) model_latex ->
  exists mathml,
    Forall2 (fun eq m => latex2mathml_convert eq = Ok m) model_latex mathml.
Proof.
  induction 1 as [|eq_i l [m Hm] _ [mathml IH]].
  - exists []. constructor.
  - exists (m :: mathml). constructor; assumption.
Qed.

Lemma Forall2_nth_error {A B} (R : A -> B -> Prop) l l' :
  Forall2 R l l' ->
  forall i a, nth_error l i = Some a -> exists b, nth_error l' i = Some b /\ R a b.
Proof.
  induction 1 as [|x y l l' Hxy _ IH]; intros [|i] a Hi; simpl in *;
    try discriminate.
  - injection Hi as <-. exists y. auto.
  - apply IH. exact Hi.
Qed.

(** C5: for a list of equation strings the converter accepts,
    [convert_latex2mathml] returns a list of the same length whose i-th
    element is the HTML-unescaped conversion of the i-th input. *)
Theorem convert_latex2mathml_elementwise model_latex :
  Forall (fun eq => exists m, latex2mathml_convert eq = Ok m) model_latex ->
  exists model_mathml,
    convert_latex2mathml latex2mathml_convert html_unescape (Some model_latex)
    = Ok model_mathml /\
    List.length model_mathml = List.length model_latex /\
    forall i eq_i, nth_error model_latex i = Some eq_i ->
      exists m, latex2mathml_convert eq_i = Ok m /\
                nth_error model_mathml i = Some (html_unescape m).
Proof.
  intros Hconv. destruct (convertible_Forall2 _ Hconv) as [mathml Hall].
  exists (map html_unescape mathml). split; [|split].
  - unfold convert_latex2mathml.
    exact (latex_loop_seq model_latex [] mathml [] Hall).
  - rewrite length_map. symmetry. eapply Forall2_length. exact Hall.
  - intros i eq_i Hi.
    destruct (Forall2_nth_error _ _ _ Hall i eq_i Hi) as (m & Hm & Heq).
    exists m. split; [exact Heq|].
    rewrite nth_error_map, Hm. reflexivity.
Qed.

End Latex2MathMLFacts.

Lemma convert_latex2mathml_elementwise_sample :
  exists model_mathml,
    convert_latex2mathml sample_convert sample_unescape (Some ["a = b"; "c"])
    = Ok model_mathml /\
    List.length model_mathml = List.length ["a = b"; "c"] /\
    forall i eq_i, nth_error ["a = b"; "c"] i = Some eq_i ->
      exists m, sample_convert eq_i = Ok m /\
                nth_error model_mathml i = Some (sample_unescape m).
Proof.
  apply (convert_latex2mathml_elementwise sample_convert sample_unescape
           ["a = b"; "c"]).
  repeat constructor; eexists; reflexivity.
Defined.

(** ** convert_mathml2petrinet *)

Section MathML2PetriNetFacts.

Variable requests_get : string -> result response.
Variable requests_put : string -> list string -> result response.

(** C2: when the conversion request gets a response, the function prints
    the status line and then returns the empty document if the status is
    not 200, raising nothing; only on status 200 does it hand back what
    [res.json()] gives. *)
Theorem convert_mathml2petrinet_status model_mathml res w :
  requests_put (REST_URL_SKEMA ++ "/mathml/acset")%string model_mathml = Ok res ->
  (status_code res <> 200 ->
   convert_mathml2petrinet requests_get requests_put (Some model_mathml) w
   = (printed w (status_line res), Ok empty_dict)) /\
  (status_code res = 200 ->
   convert_mathml2petrinet requests_get requests_put (Some model_mathml) w
   = (printed w (status_line res), res_json res)) /\
  (forall w' body,
     convert_mathml2petrinet requests_get requests_put (Some model_mathml) w
     = (w', Ok body) ->
     body <> empty_dict ->
     status_code res = 200 /\ res_json res = Ok body).
Proof.
  intros Hput.
  assert (Hrun : convert_mathml2petrinet requests_get requests_put
                   (Some model_mathml) w
                 = (printed w (status_line res),
                    if status_code res =? 200 then res_json res
                    else Ok empty_dict)).
  { unfold convert_mathml2petrinet. rewrite bind_eq. unfold St.lift at 1.
    rewrite Hput. rewrite bind_eq. unfold St.print at 1. fold (printed w (status_line res)).
    destruct (status_code res =? 200); [|reflexivity].
    rewrite bind_eq. unfold St.lift.
    destruct (res_json res); reflexivity. }
  rewrite Hrun. split; [|split].
  - intros Hne. apply Z.eqb_neq in Hne. rewrite Hne. reflexivity.
  - intros He. apply Z.eqb_eq in He. rewrite He. reflexivity.
  - intros w' body Hout Hbody.
    destruct (status_code res =? 200) eqn:He.
    + injection Hout as _ Hjson. split; [apply Z.eqb_eq; exact He|exact Hjson].
    + injection Hout as _ <-. contradiction Hbody. reflexivity.
Qed.

(** C9: on the health-check path (no argument), when the ping gets a
    response the function returns the empty document whatever the
    status and body are; the status line goes to standard output only. *)
Theorem convert_mathml2petrinet_ping res w :
  requests_get (REST_URL_SKEMA ++ "/ping")%string = Ok res ->
  convert_mathml2petrinet requests_get requests_put None w
  = (printed w (status_line res), Ok empty_dict).
Proof.
  intros Hget. unfold convert_mathml2petrinet.
  rewrite bind_eq. unfold St.lift. rewrite Hget. reflexivity.
Qed.

End MathML2PetriNetFacts.

Lemma convert_mathml2petrinet_status_server_error :
  (status_code server_error <> 200 ->
   convert_mathml2petrinet answering_get failing_put (Some ["<math></math>"])
     (world_of JNull)
   = (printed (world_of JNull) (status_line server_error), Ok empty_dict)) /\
  (status_code server_error = 200 ->
   convert_mathml2petrinet answering_get failing_put (Some ["<math></math>"])
     (world_of JNull)
   = (printed (world_of JNull) (status_line server_error), res_json server_error)) /\
  (forall w' body,
     convert_mathml2petrinet answering_get failing_put (Some ["<math></math>"])
       (world_of JNull)
     = (w', Ok body) ->
     body <> empty_dict ->
     status_code server_error = 200 /\ res_json server_error = Ok body).
Proof.
  apply (convert_mathml2petrinet_status answering_get failing_put
           ["<math></math>"] server_error (world_of JNull)).
  reflexivity.
Defined.

Lemma convert_mathml2petrinet_ping_pong :
  convert_mathml2petrinet answering_get failing_put None (world_of JNull)
  = (printed (world_of JNull) (status_line pong), Ok empty_dict).
Proof.
  apply (convert_mathml2petrinet_ping answering_get failing_put pong
           (world_of JNull)).
  reflexivity.
Defined.

(** ** Saving the figure *)

Section SaveFacts.

Variable P : Plotting.

(** Without a [save_path] the call leaves the world as it was: no file
    is written. *)
Lemma draw_graph_no_save_path model ax node_type edge_type legend model_format w :
  fst (draw_graph P model ax node_type edge_type None legend model_format w) = w.
Proof.
  revert w. change (reads_only (draw_graph P model ax node_type edge_type None
                                  legend model_format)).
  unfold draw_graph.
  apply reads_only_bind; [apply build_frames_reads_only|intros frames].
  apply reads_only_bind; [apply render_reads_only|intros fig].
  apply reads_only_ret.
Qed.

(** When [draw_graph] makes its own figure and the drawing goes through,
    the figure is written to [save_path] at 150 dpi. *)
Lemma draw_graph_own_figure_saves model node_type edge_type path legend
    model_format w frames fig w1 w2 :
  build_frames model model_format w = (w1, Ok frames) ->
  render P frames None node_type edge_type legend w1 = (w2, Ok fig) ->
  draw_graph P model None node_type edge_type (Some path) legend model_format w
  = (saved w path 150, Ok tt).
Proof.
  intros Hb Hr.
  assert (w1 = w) as ->
    by (rewrite <- (build_frames_reads_only model model_format w), Hb; reflexivity).
  assert (w2 = w) as ->
    by (rewrite <- (render_reads_only P frames None node_type edge_type legend w),
          Hr; reflexivity).
  assert (Hfig : returns (render P frames None node_type edge_type legend)
                   (fun fig => exists f, fig = Some f))
    by (unfold render; step_through; apply returns_ret; eexists; reflexivity).
  destruct (Hfig _ _ _ Hr) as [f ->].
  unfold draw_graph. rewrite bind_eq, Hb, bind_eq, Hr. reflexivity.
Qed.

(** With the caller's axes and a [save_path], the call comes to the save
    step with [fig] unbound, if it comes that far: it raises and writes
    nothing. *)
Lemma draw_graph_given_axes model a node_type edge_type path legend
    model_format w :
  let out := draw_graph P model (Some a) node_type edge_type (Some path) legend
               model_format w in
  fst out = w /\
  (exists e, snd out = Raise e) /\
  (forall frames w1 w2 fig,
     build_frames model model_format w = (w1, Ok frames) ->
     render P frames (Some a) node_type edge_type legend w1 = (w2, Ok fig) ->
     snd out = Raise (UnboundLocalError "fig")).
Proof.
  cbv zeta. unfold draw_graph. rewrite bind_eq.
  pose proof (build_frames_reads_only model model_format w) as Hb.
  destruct (build_frames model model_format w) as [w1 [frames|e]];
    simpl in Hb; subst w1.
  - rewrite bind_eq.
    pose proof (render_reads_only P frames (Some a) node_type edge_type legend w)
      as Hr.
    destruct (render P frames (Some a) node_type edge_type legend w)
      as [w2 [fig|e]] eqn:Er; simpl in Hr; subst w2.
    + apply render_given_axes_binds_no_fig in Er. subst fig. simpl.
      repeat split; eauto.
    + simpl. repeat split; eauto.
      intros frames' w1 w2 fig [= <- <-]. rewrite Er. discriminate.
  - simpl. repeat split; eauto. discriminate.
Qed.

(** C10: when the caller supplies both [ax] and [save_path], the call
    never returns and never writes the image; once the graph is built
    and drawn it is the save step that fails, with [fig] unbound.  A
    file is written only when [draw_graph] made the figure itself. *)
Theorem draw_graph_ax_and_save_path model a node_type edge_type path legend
    model_format w :
  let out := draw_graph P model (Some a) node_type edge_type (Some path) legend
               model_format w in
  (exists e, snd out = Raise e) /\
  files (fst out) = files w /\
  (forall frames w1 w2 fig,
     build_frames model model_format w = (w1, Ok frames) ->
     render P frames (Some a) node_type edge_type legend w1 = (w2, Ok fig) ->
     snd out = Raise (UnboundLocalError "fig")) /\
  (forall ax,
     files (fst (draw_graph P model ax node_type edge_type (Some path) legend
                   model_format w)) <> files w ->
     ax = None).
Proof.
  cbv zeta.
  destruct (draw_graph_given_axes model a node_type edge_type path legend
              model_format w) as (Hw & Hraise & Hfig).
  repeat split.
  - exact Hraise.
  - rewrite Hw. reflexivity.
  - exact Hfig.
  - intros [a'|] Hfiles; [|reflexivity].
    destruct (draw_graph_given_axes model a' node_type edge_type path legend
                model_format w) as (Hw' & _).
    cbv zeta in Hw'. rewrite Hw' in Hfiles. contradiction Hfiles. reflexivity.
Qed.

End SaveFacts.

(** The SIR document drawn on the caller's axes with a [save_path]: the
    save step finds [fig] unbound. *)
Lemma draw_graph_ax_and_save_path_sir :
  snd (draw_graph sample_plotting 0%nat (Some tt) None None (Some "petri.png") true
         (Some "AMR") (world_of sir_model))
  = Raise (UnboundLocalError "fig").
Proof.
  destruct (draw_graph_ax_and_save_path sample_plotting 0%nat tt None None
              "petri.png" true (Some "AMR") (world_of sir_model))
    as (_ & _ & Hfig & _).
  eapply Hfig; reflexivity.
Defined.

(** C7: a call with a [save_path] should write the figure there at 150
    dpi.  Here the SIR document is drawn on axes the caller supplies, with
    [save_path = 'sir.png']: the call raises at the save step and the list
    of written files is as empty as before. *)
Theorem draw_graph_given_axes_writes_nothing :
  draw_graph sample_plotting 0%nat (Some tt) None None (Some "sir.png") true
    (Some "AMR") (world_of sir_model)
  = (world_of sir_model, Raise (UnboundLocalError "fig")).
Proof. reflexivity. Qed.

(** The same call without [ax] writes [sir.png] at 150 dpi. *)
Example draw_graph_own_figure_writes :
  draw_graph sample_plotting 0%nat None None None (Some "sir.png") true
    (Some "AMR") (world_of sir_model)
  = (saved (world_of sir_model) "sir.png" 150, Ok tt).
Proof. reflexivity. Qed.

(** Further runs on concrete inputs. *)

Example build_frames_sir :
  snd (build_frames 0%nat (Some "AMR") (world_of sir_model))
  = Ok (Some
      ([node_row (JStr "S") "S"; node_row (JStr "I") "S"; node_row (JStr "R") "S";
        node_row (JStr "t0") "T"; node_row (JStr "t1") "T"],
       [edge_row (JStr "I") (JStr "t0") "I"; edge_row (JStr "S") (JStr "t0") "I";
        edge_row (JStr "I") (JStr "t1") "I";
        edge_row (JStr "t0") (JStr "I") "O"; edge_row (JStr "t0") (JStr "I") "O";
        edge_row (JStr "t1") (JStr "R") "O"])).
Proof. reflexivity. Qed.

(** The empty document a failed conversion returns has no ['model'] key. *)
Example draw_graph_empty_document :
  snd (draw_graph sample_plotting 0%nat None None None None true (Some "AMR")
         (world_of empty_dict))
  = Raise (KeyError (JStr "model")).
Proof. reflexivity. Qed.

(** An unrecognised format leaves [df_nodes] unbound. *)
Example draw_graph_unknown_format :
  snd (draw_graph sample_plotting 0%nat None None None None true (Some "json")
         (world_of sir_model))
  = Raise (UnboundLocalError "df_nodes").
Proof. reflexivity. Qed.

(** A caller's [node_type] leaves [map_node_type] unbound. *)
Example draw_graph_given_node_type :
  snd (draw_graph sample_plotting 0%nat None (Some [0; 0; 0; 1; 1]) None None true
         (Some "AMR") (world_of sir_model))
  = Raise (UnboundLocalError "map_node_type").
Proof. reflexivity. Qed.

Example status_line_pong :
  status_line pong
  = ("https://skema-rs.staging.terarium.ai/ping: Code 200" ++ newline_tab ++ dquote
     ++ "The SKEMA Rust web services are running." ++ dquote)%string.
Proof. reflexivity. Qed.

Example convert_latex2mathml_none :
  convert_latex2mathml sample_convert sample_unescape None
  = Raise (TypeError "object of type 'NoneType' has no len()").
Proof. reflexivity. Qed.

Example convert_latex2mathml_rejected :
  convert_latex2mathml sample_convert sample_unescape (Some ["a"; EmptyString; "b"])
  = Raise (LibraryError "empty equation").
Proof. reflexivity. Qed.

(** Without the schema's condition on references an edge may dangle. *)
Example build_frames_dangling :
  exists df_nodes df_edges,
    snd (build_frames 0%nat (Some "AMR") (world_of dangling_model))
    = Ok (Some (df_nodes, df_edges)) /\
    In (edge_row (JStr "X") (JStr "t0") "I") df_edges /\
    ~ In (Ok (JStr "X")) (column "id" df_nodes).
Proof.
  eexists. eexists. split; [reflexivity|]. split.
  - left. reflexivity.
  - intros [H|[H|[]]]; discriminate H.
Qed.

(** An assignment through the reference is what [keeps_heap] rules out. *)
Example assign_changes_heap : ~ keeps_heap (St.assign 0%nat JNull).
Proof.
  intros Hkeep. specialize (Hkeep (world_of sir_model)).
  apply (f_equal (fun h => h 0%nat)) in Hkeep. discriminate Hkeep.
Qed.

(** ** Further frame lemmas *)

Lemma reads_only_keeps_files {A} (m : M A) : reads_only m -> keeps_files m.
Proof. intros Hm w. rewrite Hm. reflexivity. Qed.

Lemma keeps_files_bind {A B} (m : M A) (k : A -> M B) :
  keeps_files m -> (forall a, keeps_files (k a)) -> keeps_files (St.bind m k).
Proof.
  intros Hm Hk w. rewrite bind_eq. specialize (Hm w).
  destruct (m w) as [w' [a|e]]; simpl in Hm.
  - rewrite Hk. exact Hm.
  - exact Hm.
Qed.

Lemma keeps_files_assign l v : keeps_files (St.assign l v).
Proof. intros w. reflexivity. Qed.

Lemma dict_get_missing d k :
  (forall v, ~ In (k, v) d) -> dict_get d k = Raise (KeyError (JStr k)).
Proof.
  induction d as [|[k' v] d IH]; intros Hmiss; simpl.
  - reflexivity.
  - destruct (String.eqb k' k) eqn:Hk.
    + apply String.eqb_eq in Hk. subst k'.
      exfalso. apply (Hmiss v). left. reflexivity.
    + apply IH. intros v' Hin. apply (Hmiss v'). right. exact Hin.
Qed.

(** Running a library call inside the monad. *)
Lemma bind_lift {A B} (r : result A) (k : A -> M B) w :
  St.bind (St.lift r) k w
  = match r with
    | Ok a => k a w
    | Raise e => (w, Raise e)
    end.
Proof. rewrite bind_eq. unfold St.lift. destruct r; reflexivity. Qed.

(** ** draw_graph: calls that cannot succeed *)

(** Decides a library call whose outcome the goal branches on. *)
Ltac case_library_call :=
  match goal with
  | |- context [match ?r with Ok _ => _ | Raise _ => _ end] =>
      lazymatch r with
      | context [match _ with _ => _ end] => fail
      | _ => destruct r as [[]|] || destruct r
      end
  end.

Ltac run_render :=
  unfold render, St.bind, St.lift, St.local, St.ret; simpl;
  repeat (case_library_call; simpl).

Lemma render_given_node_type P frames ax l edge_type legend w :
  exists e, render P frames ax (Some l) edge_type legend w = (w, Raise e).
Proof.
  destruct frames as [[df_nodes df_edges]|], edge_type, ax; run_render; eauto.
Qed.

Lemma render_given_edge_type P frames ax node_type l legend w :
  exists e, render P frames ax node_type (Some l) legend w = (w, Raise e).
Proof.
  destruct frames as [[df_nodes df_edges]|], node_type, ax; run_render; eauto.
Qed.

Lemma build_frames_unrecognised model model_format w :
  format_is model_format "acset" = false ->
  format_is model_format "AMR" = false ->
  build_frames model model_format w = (w, Ok None).
Proof.
  intros Hacset Hamr. unfold build_frames. rewrite Hacset, Hamr. reflexivity.
Qed.

(** X1: with a [model_format] that is neither ['acset'] nor ['AMR'] (also
    [None]) the frames are never bound: whatever the other arguments, the
    call raises [UnboundLocalError] for [df_nodes] and changes nothing. *)
Theorem draw_graph_unrecognised_format P model ax node_type edge_type save_path
    legend model_format w :
  format_is model_format "acset" = false ->
  format_is model_format "AMR" = false ->
  draw_graph P model ax node_type edge_type save_path legend model_format w
  = (w, Raise (UnboundLocalError "df_nodes")).
Proof.
  intros Hacset Hamr. unfold draw_graph.
  rewrite bind_eq, (build_frames_unrecognised _ _ _ Hacset Hamr).
  reflexivity.
Qed.

Lemma draw_graph_unrecognised_format_none :
  draw_graph sample_plotting 0%nat None None None (Some "net.png") true None
    (world_of sir_model)
  = (world_of sir_model, Raise (UnboundLocalError "df_nodes")).
Proof.
  apply (draw_graph_unrecognised_format sample_plotting 0%nat None None None
           (Some "net.png") true None (world_of sir_model)); reflexivity.
Defined.

(** X2: a caller who passes [node_type] or [edge_type] gets no drawing: the
    call raises, whatever the document, the format and the libraries do,
    and it leaves the world as it was (no file is written). *)
Theorem draw_graph_given_types P model ax node_type edge_type save_path legend
    model_format w :
  node_type <> None \/ edge_type <> None ->
  exists e,
    draw_graph P model ax node_type edge_type save_path legend model_format w
    = (w, Raise e).
Proof.
  intros Hgiven. unfold draw_graph. rewrite bind_eq.
  pose proof (build_frames_reads_only model model_format w) as Hb.
  destruct (build_frames model model_format w) as [w1 [frames|e]];
    simpl in Hb; subst w1; [|eauto].
  rewrite bind_eq.
  assert (Hr : exists e, render P frames ax node_type edge_type legend w
                         = (w, Raise e)).
  { destruct Hgiven as [Hn|He].
    - destruct node_type as [l|]; [|contradiction Hn; reflexivity].
      apply render_given_node_type.
    - destruct edge_type as [l|]; [|contradiction He; reflexivity].
      apply render_given_edge_type. }
  destruct Hr as [e ->]. eauto.
Qed.

Lemma draw_graph_given_types_sir :
  exists e,
    draw_graph sample_plotting 0%nat None None (Some [0; 0; 0; 1; 1; 1])
      (Some "net.png") true (Some "AMR") (world_of sir_model)
    = (world_of sir_model, Raise e).
Proof.
  apply (draw_graph_given_types sample_plotting 0%nat None None
           (Some [0; 0; 0; 1; 1; 1]) (Some "net.png") true (Some "AMR")
           (world_of sir_model)).
  right. discriminate.
Defined.

Lemma draw_graph_amr_no_model_key P model ax node_type edge_type save_path
    legend w d :
  heap w model = JObj d ->
  (forall v, ~ In ("model", v) d) ->
  draw_graph P model ax node_type edge_type save_path legend (Some "AMR") w
  = (w, Raise (KeyError (JStr "model"))).
Proof.
  intros Hd Hmiss.
  assert (Hf : amr_frames (heap w model) = Raise (KeyError (JStr "model"))).
  { unfold amr_frames, amr_node_list, amr_states. rewrite Hd. simpl getitem.
    rewrite (dict_get_missing _ _ Hmiss). reflexivity. }
  assert (Hb : build_frames model (Some "AMR") w
               = (w, Raise (KeyError (JStr "model")))).
  { unfold build_frames, amr_reshape, St.bind, St.deref, St.lift, St.ret.
    simpl. rewrite Hf. reflexivity. }
  unfold draw_graph. rewrite bind_eq, Hb. reflexivity.
Qed.

(** X3: drawing, in the AMR format, a dictionary that has no ['model'] key
    (such as the empty document a failed conversion returns) raises
    [KeyError('model')] before anything is drawn or written. *)
Theorem draw_graph_missing_model_key P model ax node_type edge_type save_path
    legend w d :
  heap w model = JObj d ->
  (forall v, ~ In ("model", v) d) ->
  draw_graph P model ax node_type edge_type save_path legend (Some "AMR") w
  = (w, Raise (KeyError (JStr "model"))).
Proof.
  intros Hd Hmiss.
  exact (draw_graph_amr_no_model_key P model ax node_type edge_type save_path
           legend w d Hd Hmiss).
Qed.

Lemma draw_graph_missing_model_key_empty :
  draw_graph sample_plotting 0%nat None None None None true (Some "AMR")
    (world_of empty_dict)
  = (world_of empty_dict, Raise (KeyError (JStr "model"))).
Proof.
  apply (draw_graph_missing_model_key sample_plotting 0%nat None None None None
           true (world_of empty_dict) []).
  - reflexivity.
  - intros v [].
Defined.


(** ** The columns of the AMR frames *)

Lemma column_app name rows rows' :
  column name (rows ++ rows') = column name rows ++ column name rows'.
Proof. apply map_app. Qed.

Lemma column_flat_map {A} name (rows : A -> list pydict) (vals : A -> list json) l :
  (forall x, column name (rows x) = map Ok (vals x)) ->
  column name (flat_map rows l) = map Ok (flat_map vals l).
Proof.
  intros Hrows. induction l as [|x l IH]; simpl.
  - reflexivity.
  - rewrite column_app, map_app, Hrows, IH. reflexivity.
Qed.

Lemma column_const name rows c :
  (forall r, In r rows -> dict_get r name = c) ->
  column name rows = repeat c (List.length rows).
Proof.
  induction rows as [|r rows IH]; intros Hc; simpl.
  - reflexivity.
  - rewrite (Hc r (or_introl eq_refl)), IH; [reflexivity|].
    intros r' Hr'. apply Hc. right. exact Hr'.
Qed.

Lemma length_input_rows transitions :
  List.length (input_rows transitions)
  = List.length (flat_map t_input transitions).
Proof.
  unfold input_rows. rewrite !length_flat_map. f_equal.
  apply map_ext. intros tr. apply length_map.
Qed.

Lemma length_output_rows transitions :
  List.length (output_rows transitions)
  = List.length (flat_map t_output transitions).
Proof.
  unfold output_rows. rewrite !length_flat_map. f_equal.
  apply map_ext. intros tr. apply length_map.
Qed.

Lemma input_rows_inv transitions e :
  In e (input_rows transitions) ->
  exists tr s, e = edge_row s (t_id tr) "I".
Proof.
  unfold input_rows. intros He. apply in_flat_map in He.
  destruct He as (tr & _ & He). apply in_map_iff in He.
  destruct He as (s & <- & _). eauto.
Qed.

Lemma output_rows_inv transitions e :
  In e (output_rows transitions) ->
  exists tr s, e = edge_row (t_id tr) s "O".
Proof.
  unfold output_rows. intros He. apply in_flat_map in He.
  destruct He as (tr & _ & He). apply in_map_iff in He.
  destruct He as (s & <- & _). eauto.
Qed.

(** X5: on an AMR document the frames keep the document's order.  The node
    list holds the state identifiers, typed ['S'], followed by the
    transition identifiers, typed ['T']; the edge list holds first one
    ['I'] row per input entry, from that entry to its transition, then one
    ['O'] row per output entry, from the transition to that entry, each in
    the order of the transitions and of their lists; every edge row has
    the empty string as [id]. *)
Theorem build_frames_amr_columns model w states transitions :
  amr_document (heap w model) states transitions ->
  exists df_nodes df_edges,
    build_frames model (Some "AMR") w = (w, Ok (Some (df_nodes, df_edges))) /\
    column "id" df_nodes = map Ok (states ++ map t_id transitions) /\
    column "type" df_nodes
    = repeat (Ok (JStr "S")) (List.length states)
      ++ repeat (Ok (JStr "T")) (List.length transitions) /\
    column "source" df_edges
    = map Ok (flat_map t_input transitions
              ++ flat_map (fun tr => map (fun _ => t_id tr) (t_output tr))
                   transitions) /\
    column "target" df_edges
    = map Ok (flat_map (fun tr => map (fun _ => t_id tr) (t_input tr)) transitions
              ++ flat_map t_output transitions) /\
    column "edge_type" df_edges
    = repeat (Ok (JStr "I")) (List.length (flat_map t_input transitions))
      ++ repeat (Ok (JStr "O")) (List.length (flat_map t_output transitions)) /\
    column "id" df_edges = repeat (Ok (JStr EmptyString)) (List.length df_edges).
Proof.
  intros Hdoc.
  exists (node_rows states transitions), (edge_rows transitions).
  split; [apply build_frames_amr_document; exact Hdoc|].
  unfold node_rows, edge_rows. repeat split.
  - rewrite column_app, !map_app. unfold column. rewrite !map_map. reflexivity.
  - rewrite column_app. unfold column. rewrite !map_map.
    rewrite <- (map_const (Ok (JStr "S")) states).
    rewrite <- (map_const (Ok (JStr "T")) transitions). reflexivity.
  - rewrite column_app, map_app. unfold input_rows, output_rows. f_equal.
    + apply column_flat_map. intros tr. unfold column. rewrite map_map.
      reflexivity.
    + apply column_flat_map. intros tr. unfold column. rewrite !map_map.
      reflexivity.
  - rewrite column_app, map_app. unfold input_rows, output_rows. f_equal.
    + apply column_flat_map. intros tr. unfold column. rewrite !map_map.
      reflexivity.
    + apply column_flat_map. intros tr. unfold column. rewrite map_map.
      reflexivity.
  - rewrite column_app, <- length_input_rows, <- length_output_rows. f_equal.
    + apply column_const. intros e He.
      apply input_rows_inv in He. destruct He as (tr & s & ->). reflexivity.
    + apply column_const. intros e He.
      apply output_rows_inv in He. destruct He as (tr & s & ->). reflexivity.
  - apply column_const. intros e He. apply in_app_or in He.
    destruct He as [He|He].
    + apply input_rows_inv in He. destruct He as (tr & s & ->). reflexivity.
    + apply output_rows_inv in He. destruct He as (tr & s & ->). reflexivity.
Qed.

Lemma build_frames_amr_columns_sir :
  exists df_nodes df_edges,
    build_frames 0%nat (Some "AMR") (world_of sir_model)
    = (world_of sir_model, Ok (Some (df_nodes, df_edges))) /\
    column "id" df_nodes
    = map Ok [JStr "S"; JStr "I"; JStr "R"; JStr "t0"; JStr "t1"] /\
    column "type" df_nodes
    = repeat (Ok (JStr "S")) 3 ++ repeat (Ok (JStr "T")) 2 /\
    column "source" df_edges
    = map Ok [JStr "I"; JStr "S"; JStr "I"; JStr "t0"; JStr "t0"; JStr "t1"] /\
    column "target" df_edges
    = map Ok [JStr "t0"; JStr "t0"; JStr "t1"; JStr "I"; JStr "I"; JStr "R"] /\
    column "edge_type" df_edges
    = repeat (Ok (JStr "I")) 3 ++ repeat (Ok (JStr "O")) 3 /\
    column "id" df_edges = repeat (Ok (JStr EmptyString)) (List.length df_edges).
Proof.
  exact (build_frames_amr_columns 0%nat (world_of sir_model) sir_states
           sir_transitions sir_model_document).
Defined.

(** ** The ACSet reshape *)

Lemma names_lookup_num names z :
  names_lookup names (JNum z)
  = if index_in_range (List.length names) z
    then Ok (name_at names z)
    else Raise (KeyError (JNum z)).
Proof.
  unfold names_lookup, index_in_range, name_at.
  destruct ((1 <=? z) && (z <=? Z.of_nat (List.length names))) eqn:Hrange;
    [|reflexivity].
  apply andb_true_iff in Hrange. destruct Hrange as [Hlo Hhi].
  apply Z.leb_le in Hlo, Hhi.
  rewrite (nth_error_nth' names JNull); [reflexivity|lia].
Qed.

Lemma name_at_In names z :
  index_in_range (List.length names) z = true -> In (name_at names z) names.
Proof.
  unfold index_in_range, name_at. intros Hrange.
  apply andb_true_iff in Hrange. destruct Hrange as [Hlo Hhi].
  apply Z.leb_le in Hlo, Hhi. apply nth_In. lia.
Qed.

Lemma acset_column_document model table field rows names :
  getitem model table = Ok (JArr rows) ->
  Forall2 (fun s name => getitem s field = Ok name) rows names ->
  acset_column model table field = Ok names.
Proof.
  intros Hget Hrows. unfold acset_column. rewrite Hget. simpl.
  rewrite (traverse_Forall2 _ (fun name => name) rows names Hrows).
  rewrite map_id. reflexivity.
Qed.

(** The endpoints of a table of arcs: the names under their indices, or
    the [KeyError] of the first index that is not a key. *)
Lemma acset_endpoints_document model names table field rows (arcs : list arc)
    (index : arc -> Z) :
  getitem model table = Ok (JArr rows) ->
  Forall2 (fun d a => getitem d field = Ok (JNum (index a))) rows arcs ->
  acset_endpoints model names table field
  = match first_missing (List.length names) (map index arcs) with
    | Some z => Raise (KeyError (JNum z))
    | None => Ok (map (fun a => name_at names (index a)) arcs)
    end.
Proof.
  intros Hget Hrows. unfold acset_endpoints. rewrite Hget. simpl. clear Hget.
  unfold first_missing.
  induction Hrows as [|d a rows arcs Hd _ IH]; simpl.
  - reflexivity.
  - rewrite Hd. cbn [Res.bind]. rewrite names_lookup_num.
    destruct (index_in_range (List.length names) (index a)); simpl.
    + rewrite IH.
      destruct (find (fun z => negb (index_in_range (List.length names) z))
                  (map index arcs)); reflexivity.
    + reflexivity.
Qed.

Lemma first_missing_none n (arcs : list arc) (index : arc -> Z) :
  (forall a, In a arcs -> index_in_range n (index a) = true) ->
  first_missing n (map index arcs) = None.
Proof.
  intros Hall. unfold first_missing.
  destruct (find (fun z => negb (index_in_range n z)) (map index arcs))
    as [z|] eqn:Hfind; [|reflexivity].
  apply find_some in Hfind. destruct Hfind as [Hin Hbad].
  apply in_map_iff in Hin. destruct Hin as (a & <- & Ha).
  rewrite (Hall a Ha) in Hbad. discriminate Hbad.
Qed.

Lemma first_missing_some n zs z :
  first_missing n zs = Some z -> In z zs /\ index_in_range n z = false.
Proof.
  unfold first_missing. intros Hfind. apply find_some in Hfind.
  destruct Hfind as [Hin Hbad]. split; [exact Hin|].
  apply negb_true_iff. exact Hbad.
Qed.

Lemma first_missing_all n (arcs : list arc) (index : arc -> Z) :
  first_missing n (map index arcs) = None ->
  forall a, In a arcs -> index_in_range n (index a) = true.
Proof.
  unfold first_missing. intros Hfind a Ha.
  pose proof (find_none _ _ Hfind (index a) (in_map index arcs a Ha)) as Hok.
  apply negb_false_iff. exact Hok.
Qed.

Lemma combine_map {A B C} (f : A -> B) (g : A -> C) l :
  combine (map f l) (map g l) = map (fun a => (f a, g a)) l.
Proof.
  induction l as [|a l IH]; simpl; [reflexivity|]. rewrite IH. reflexivity.
Qed.

Section AcsetDocument.

Variables (model : json) (snames tnames : list json) (inputs outputs : list arc).
Hypothesis Hdoc : acset_document model snames tnames inputs outputs.

Lemma acset_node_list_document :
  acset_node_list model
  = Ok (map (fun v => node_row v "S") snames ++ map (fun v => node_row v "T") tnames).
Proof.
  destruct Hdoc as (sl & tl & il & ol & HS & HT & _ & _ & Hsl & Htl & _ & _).
  unfold acset_node_list.
  rewrite (acset_column_document _ _ _ _ _ HS Hsl). simpl.
  rewrite (acset_column_document _ _ _ _ _ HT Htl). reflexivity.
Qed.

(** The four comprehensions of [df_edges] in the order Python runs them. *)
Lemma acset_edge_list_document :
  acset_edge_list model snames tnames
  = match first_missing (List.length snames) (map arc_state inputs) with
    | Some z => Raise (KeyError (JNum z))
    | None =>
    match first_missing (List.length tnames) (map arc_transition outputs) with
    | Some z => Raise (KeyError (JNum z))
    | None =>
    match first_missing (List.length tnames) (map arc_transition inputs) with
    | Some z => Raise (KeyError (JNum z))
    | None =>
    match first_missing (List.length snames) (map arc_state outputs) with
    | Some z => Raise (KeyError (JNum z))
    | None => Ok (acset_edge_rows snames tnames inputs outputs)
    end end end end.
Proof.
  destruct Hdoc as (sl & tl & il & ol & _ & _ & HI & HO & _ & _ & Hil & Hol).
  unfold acset_edge_list.
  rewrite (acset_endpoints_document model snames "I" "is" il inputs arc_state HI)
    by (eapply Forall2_impl; [|exact Hil]; intros d a [H _]; exact H).
  destruct (first_missing (List.length snames) (map arc_state inputs));
    [reflexivity|]. simpl.
  rewrite (acset_endpoints_document model tnames "O" "ot" ol outputs
             arc_transition HO)
    by (eapply Forall2_impl; [|exact Hol]; intros d a [_ H]; exact H).
  destruct (first_missing (List.length tnames) (map arc_transition outputs));
    [reflexivity|]. simpl.
  rewrite (acset_endpoints_document model tnames "I" "it" il inputs
             arc_transition HI)
    by (eapply Forall2_impl; [|exact Hil]; intros d a [_ H]; exact H).
  destruct (first_missing (List.length tnames) (map arc_transition inputs));
    [reflexivity|]. simpl.
  rewrite (acset_endpoints_document model snames "O" "os" ol outputs arc_state HO)
    by (eapply Forall2_impl; [|exact Hol]; intros d a [H _]; exact H).
  destruct (first_missing (List.length snames) (map arc_state outputs));
    [reflexivity|]. simpl.
  unfold acset_edge_rows. rewrite !combine_map, !map_map. reflexivity.
Qed.

Lemma acset_frames_document :
  acset_frames model
  = df_edges <-- acset_edge_list model snames tnames ;;
    Ok (map (fun v => node_row v "S") snames ++ map (fun v => node_row v "T") tnames,
        df_edges).
Proof.
  unfold acset_frames. rewrite acset_node_list_document.
  destruct Hdoc as (sl & tl & il & ol & HS & HT & _ & _ & Hsl & Htl & _ & _).
  rewrite (acset_column_document _ _ _ _ _ HS Hsl). simpl.
  rewrite (acset_column_document _ _ _ _ _ HT Htl). reflexivity.
Qed.

End AcsetDocument.

Lemma build_frames_acset model w :
  build_frames model (Some "acset") w
  = (w, match acset_frames (heap w model) with
        | Ok fr => Ok (Some fr)
        | Raise e => Raise e
        end).
Proof.
  unfold build_frames, acset_reshape, St.bind, St.deref, St.lift, St.ret. simpl.
  destruct (acset_frames (heap w model)); reflexivity.
Qed.

Lemma build_frames_acset_in_range model w snames tnames inputs outputs :
  acset_document (heap w model) snames tnames inputs outputs ->
  arcs_in_range snames tnames inputs ->
  arcs_in_range snames tnames outputs ->
  build_frames model (Some "acset") w
  = (w, Ok (Some (map (fun v => node_row v "S") snames
                  ++ map (fun v => node_row v "T") tnames,
                  acset_edge_rows snames tnames inputs outputs))).
Proof.
  intros Hdoc Hin Hout.
  rewrite build_frames_acset, (acset_frames_document _ _ _ _ _ Hdoc).
  rewrite (acset_edge_list_document _ _ _ _ _ Hdoc).
  rewrite (first_missing_none _ inputs arc_state)
    by (intros a Ha; apply (Hin a Ha)).
  rewrite (first_missing_none _ outputs arc_transition)
    by (intros a Ha; apply (Hout a Ha)).
  rewrite (first_missing_none _ inputs arc_transition)
    by (intros a Ha; apply (Hin a Ha)).
  rewrite (first_missing_none _ outputs arc_state)
    by (intros a Ha; apply (Hout a Ha)).
  reflexivity.
Qed.

Lemma sir_acset_document :
  acset_document sir_acset sir_snames sir_tnames sir_inputs sir_outputs.
Proof.
  exists [JObj [("sname", JStr "S")]; JObj [("sname", JStr "I")];
          JObj [("sname", JStr "R")]].
  exists [JObj [("tname", JStr "inf")]; JObj [("tname", JStr "rec")]].
  exists [JObj [("it", JNum 1); ("is", JNum 1)];
          JObj [("it", JNum 1); ("is", JNum 2)];
          JObj [("it", JNum 2); ("is", JNum 2)]].
  exists [JObj [("ot", JNum 1); ("os", JNum 2)];
          JObj [("ot", JNum 1); ("os", JNum 2)];
          JObj [("ot", JNum 2); ("os", JNum 3)]].
  repeat split; repeat constructor.
Qed.

Lemma sir_inputs_in_range : arcs_in_range sir_snames sir_tnames sir_inputs.
Proof. intros a [<-|[<-|[<-|[]]]]; split; reflexivity. Qed.

Lemma sir_outputs_in_range : arcs_in_range sir_snames sir_tnames sir_outputs.
Proof. intros a [<-|[<-|[<-|[]]]]; split; reflexivity. Qed.

(** X6: on an ACSet document whose arcs index existing states and
    transitions (from 1), the node list holds the state names, typed
    ['S'], followed by the transition names, typed ['T'], and the edge
    list holds one ['I'] row per input arc, from the state it indexes to
    the transition it indexes, followed by one ['O'] row per output arc,
    from its transition to its state. *)
Theorem build_frames_acset_columns model w snames tnames inputs outputs :
  acset_document (heap w model) snames tnames inputs outputs ->
  arcs_in_range snames tnames inputs ->
  arcs_in_range snames tnames outputs ->
  exists df_nodes df_edges,
    build_frames model (Some "acset") w = (w, Ok (Some (df_nodes, df_edges))) /\
    column "id" df_nodes = map Ok (snames ++ tnames) /\
    column "type" df_nodes
    = repeat (Ok (JStr "S")) (List.length snames)
      ++ repeat (Ok (JStr "T")) (List.length tnames) /\
    column "source" df_edges
    = map Ok (map (fun a => name_at snames (arc_state a)) inputs
              ++ map (fun a => name_at tnames (arc_transition a)) outputs) /\
    column "target" df_edges
    = map Ok (map (fun a => name_at tnames (arc_transition a)) inputs
              ++ map (fun a => name_at snames (arc_state a)) outputs) /\
    column "edge_type" df_edges
    = repeat (Ok (JStr "I")) (List.length inputs)
      ++ repeat (Ok (JStr "O")) (List.length outputs).
Proof.
  intros Hdoc Hin Hout.
  eexists. eexists.
  split; [apply (build_frames_acset_in_range _ _ _ _ _ _ Hdoc Hin Hout)|].
  unfold acset_edge_rows, column. repeat split.
  - rewrite !map_app, !map_map. reflexivity.
  - rewrite !map_app, !map_map.
    rewrite <- (map_const (Ok (JStr "S")) snames).
    rewrite <- (map_const (Ok (JStr "T")) tnames). reflexivity.
  - rewrite !map_app, !map_map. reflexivity.
  - rewrite !map_app, !map_map. reflexivity.
  - rewrite !map_app, !map_map.
    rewrite <- (map_const (Ok (JStr "I")) inputs).
    rewrite <- (map_const (Ok (JStr "O")) outputs). reflexivity.
Qed.

Lemma build_frames_acset_columns_sir :
  exists df_nodes df_edges,
    build_frames 0%nat (Some "acset") (world_of sir_acset)
    = (world_of sir_acset, Ok (Some (df_nodes, df_edges))) /\
    column "id" df_nodes
    = map Ok [JStr "S"; JStr "I"; JStr "R"; JStr "inf"; JStr "rec"] /\
    column "type" df_nodes
    = repeat (Ok (JStr "S")) 3 ++ repeat (Ok (JStr "T")) 2 /\
    column "source" df_edges
    = map Ok [JStr "S"; JStr "I"; JStr "I"; JStr "inf"; JStr "inf"; JStr "rec"] /\
    column "target" df_edges
    = map Ok [JStr "inf"; JStr "inf"; JStr "rec"; JStr "I"; JStr "I"; JStr "R"] /\
    column "edge_type" df_edges
    = repeat (Ok (JStr "I")) 3 ++ repeat (Ok (JStr "O")) 3.
Proof.
  exact (build_frames_acset_columns 0%nat (world_of sir_acset) sir_snames
           sir_tnames sir_inputs sir_outputs sir_acset_document
           sir_inputs_in_range sir_outputs_in_range).
Defined.

(** X7: on such an ACSet document no edge dangles: the source and the
    target of every edge row occur in the [id] column of the node list. *)
Theorem build_frames_acset_no_dangling model w snames tnames inputs outputs :
  acset_document (heap w model) snames tnames inputs outputs ->
  arcs_in_range snames tnames inputs ->
  arcs_in_range snames tnames outputs ->
  exists df_nodes df_edges,
    build_frames model (Some "acset") w = (w, Ok (Some (df_nodes, df_edges))) /\
    forall e, In e df_edges ->
      exists source target,
        dict_get e "source" = Ok source /\
        dict_get e "target" = Ok target /\
        In (Ok source) (column "id" df_nodes) /\
        In (Ok target) (column "id" df_nodes).
Proof.
  intros Hdoc Hin Hout.
  eexists. eexists.
  split; [apply (build_frames_acset_in_range _ _ _ _ _ _ Hdoc Hin Hout)|].
  assert (Hs : forall z, index_in_range (List.length snames) z = true ->
                 In (Ok (name_at snames z))
                   (column "id" (map (fun v => node_row v "S") snames
                                 ++ map (fun v => node_row v "T") tnames))).
  { intros z Hz. unfold column. rewrite map_app, !map_map.
    apply in_or_app. left.
    apply (in_map (fun v => Ok v)). apply name_at_In. exact Hz. }
  assert (Ht : forall z, index_in_range (List.length tnames) z = true ->
                 In (Ok (name_at tnames z))
                   (column "id" (map (fun v => node_row v "S") snames
                                 ++ map (fun v => node_row v "T") tnames))).
  { intros z Hz. unfold column. rewrite map_app, !map_map.
    apply in_or_app. right.
    apply (in_map (fun v => Ok v)). apply name_at_In. exact Hz. }
  intros e He. unfold acset_edge_rows in He. apply in_app_or in He.
  destruct He as [He|He]; apply in_map_iff in He; destruct He as (a & <- & Ha).
  - destruct (Hin a Ha) as [Hsa Hta].
    exists (name_at snames (arc_state a)), (name_at tnames (arc_transition a)).
    repeat split; auto.
  - destruct (Hout a Ha) as [Hsa Hta].
    exists (name_at tnames (arc_transition a)), (name_at snames (arc_state a)).
    repeat split; auto.
Qed.

Lemma build_frames_acset_no_dangling_sir :
  exists df_nodes df_edges,
    build_frames 0%nat (Some "acset") (world_of sir_acset)
    = (world_of sir_acset, Ok (Some (df_nodes, df_edges))) /\
    forall e, In e df_edges ->
      exists source target,
        dict_get e "source" = Ok source /\
        dict_get e "target" = Ok target /\
        In (Ok source) (column "id" df_nodes) /\
        In (Ok target) (column "id" df_nodes).
Proof.
  exact (build_frames_acset_no_dangling 0%nat (world_of sir_acset) sir_snames
           sir_tnames sir_inputs sir_outputs sir_acset_document
           sir_inputs_in_range sir_outputs_in_range).
Defined.

(** X8: on an ACSet document in which some arc carries an index that is
    not in [1 .. len] of the table it points into (0, as in a zero-based
    numbering, is one), the reshape raises [KeyError] with such an index
    of one of the arcs. *)
Theorem build_frames_acset_index_out_of_range model w snames tnames inputs
    outputs a :
  acset_document (heap w model) snames tnames inputs outputs ->
  In a (inputs ++ outputs) ->
  index_in_range (List.length snames) (arc_state a) = false \/
  index_in_range (List.length tnames) (arc_transition a) = false ->
  exists z,
    build_frames model (Some "acset") w = (w, Raise (KeyError (JNum z))) /\
    ((In z (map arc_state (inputs ++ outputs)) /\
      index_in_range (List.length snames) z = false) \/
     (In z (map arc_transition (inputs ++ outputs)) /\
      index_in_range (List.length tnames) z = false)).
Proof.
  intros Hdoc Ha Hbad.
  rewrite build_frames_acset, (acset_frames_document _ _ _ _ _ Hdoc).
  rewrite (acset_edge_list_document _ _ _ _ _ Hdoc).
  destruct (first_missing (List.length snames) (map arc_state inputs))
    as [z|] eqn:H1.
  { apply first_missing_some in H1. destruct H1 as [Hz Hr].
    exists z. split; [reflexivity|]. left. split; [|exact Hr].
    rewrite map_app. apply in_or_app. left. exact Hz. }
  destruct (first_missing (List.length tnames) (map arc_transition outputs))
    as [z|] eqn:H2.
  { apply first_missing_some in H2. destruct H2 as [Hz Hr].
    exists z. split; [reflexivity|]. right. split; [|exact Hr].
    rewrite map_app. apply in_or_app. right. exact Hz. }
  destruct (first_missing (List.length tnames) (map arc_transition inputs))
    as [z|] eqn:H3.
  { apply first_missing_some in H3. destruct H3 as [Hz Hr].
    exists z. split; [reflexivity|]. right. split; [|exact Hr].
    rewrite map_app. apply in_or_app. left. exact Hz. }
  destruct (first_missing (List.length snames) (map arc_state outputs))
    as [z|] eqn:H4.
  { apply first_missing_some in H4. destruct H4 as [Hz Hr].
    exists z. split; [reflexivity|]. left. split; [|exact Hr].
    rewrite map_app. apply in_or_app. right. exact Hz. }
  exfalso.
  pose proof (first_missing_all _ _ _ H1) as A1.
  pose proof (first_missing_all _ _ _ H2) as A2.
  pose proof (first_missing_all _ _ _ H3) as A3.
  pose proof (first_missing_all _ _ _ H4) as A4.
  apply in_app_or in Ha.
  destruct Ha as [Ha|Ha], Hbad as [Hb|Hb].
  - rewrite (A1 a Ha) in Hb. discriminate Hb.
  - rewrite (A3 a Ha) in Hb. discriminate Hb.
  - rewrite (A4 a Ha) in Hb. discriminate Hb.
  - rewrite (A2 a Ha) in Hb. discriminate Hb.
Qed.

Lemma zero_based_acset_document :
  acset_document zero_based_acset [JStr "S"] [JStr "inf"]
    [{| arc_state := 0; arc_transition := 1 |}] [].
Proof.
  exists [JObj [("sname", JStr "S")]], [JObj [("tname", JStr "inf")]].
  exists [JObj [("it", JNum 1); ("is", JNum 0)]], [].
  repeat split; repeat constructor.
Qed.

Lemma build_frames_acset_index_out_of_range_zero :
  exists z,
    build_frames 0%nat (Some "acset") (world_of zero_based_acset)
    = (world_of zero_based_acset, Raise (KeyError (JNum z))) /\
    ((In z (map arc_state ([{| arc_state := 0; arc_transition := 1 |}] ++ [])) /\
      index_in_range (List.length [JStr "S"]) z = false) \/
     (In z (map arc_transition ([{| arc_state := 0; arc_transition := 1 |}] ++ [])) /\
      index_in_range (List.length [JStr "inf"]) z = false)).
Proof.
  apply (build_frames_acset_index_out_of_range 0%nat (world_of zero_based_acset)
           [JStr "S"] [JStr "inf"] [{| arc_state := 0; arc_transition := 1 |}] []
           {| arc_state := 0; arc_transition := 1 |} zero_based_acset_document).
  - left. reflexivity.
  - left. reflexivity.
Defined.

(** ** convert_latex2mathml: rejected equations *)

Section Latex2MathMLRejections.

Variable latex2mathml_convert : string -> result string.
Variable html_unescape : string -> string.

Lemma latex_loop_rejected accepted : forall done eq_k rest e model_mathml,
  Forall (fun eq => exists m, latex2mathml_convert eq = Ok m) accepted ->
  latex2mathml_convert eq_k = Raise e ->
  latex_loop latex2mathml_convert html_unescape (done ++ accepted ++ eq_k :: rest)
    (seq (List.length done) (List.length (accepted ++ eq_k :: rest))) model_mathml
  = Raise e.
Proof.
  induction accepted as [|eq_i accepted IH];
    intros done eq_k rest e model_mathml Hacc Hrej; simpl.
  - rewrite nth_error_app2 by apply Nat.le_refl.
    rewrite Nat.sub_diag. simpl. rewrite Hrej. reflexivity.
  - inversion Hacc as [|? ? [m Hm] Hacc']; subst.
    rewrite nth_error_app2 by apply Nat.le_refl.
    rewrite Nat.sub_diag. simpl. rewrite Hm. simpl.
    replace (done ++ eq_i :: accepted ++ eq_k :: rest)
      with ((done ++ [eq_i]) ++ accepted ++ eq_k :: rest)
      by (rewrite <- app_assoc; reflexivity).
    replace (S (List.length done)) with (List.length (done ++ [eq_i]))
      by (rewrite length_app; simpl; apply Nat.add_1_r).
    apply IH; assumption.
Qed.

(** Each list is accepted whole or has a first rejected equation. *)
Lemma accepted_or_rejected model_latex :
  (exists mathml,
     Forall2 (fun eq m => latex2mathml_convert eq = Ok m) model_latex mathml) \/
  (exists accepted eq_k rest e,
     model_latex = accepted ++ eq_k :: rest /\
     Forall (fun eq => exists m, latex2mathml_convert eq = Ok m) accepted /\
     latex2mathml_convert eq_k = Raise e).
Proof.
  induction model_latex as [|eq_i l IH].
  - left. exists []. constructor.
  - destruct (latex2mathml_convert eq_i) as [m|e] eqn:Hm.
    + destruct IH as [[mathml Hall]|(accepted & eq_k & rest & e & -> & Hacc & Hrej)].
      * left. exists (m :: mathml). constructor; assumption.
      * right. exists (eq_i :: accepted), eq_k, rest, e.
        repeat split; [|exact Hrej]. constructor; [eauto|exact Hacc].
    + right. exists [], eq_i, l, e. repeat split; [constructor|exact Hm].
Qed.

Lemma convert_latex2mathml_accepted model_latex mathml :
  Forall2 (fun eq m => latex2mathml_convert eq = Ok m) model_latex mathml ->
  convert_latex2mathml latex2mathml_convert html_unescape (Some model_latex)
  = Ok (map html_unescape mathml).
Proof.
  intros Hall.
  exact (latex_loop_seq latex2mathml_convert html_unescape model_latex [] mathml []
           Hall).
Qed.

Lemma convert_latex2mathml_rejected_at accepted eq_k rest e :
  Forall (fun eq => exists m, latex2mathml_convert eq = Ok m) accepted ->
  latex2mathml_convert eq_k = Raise e ->
  convert_latex2mathml latex2mathml_convert html_unescape
    (Some (accepted ++ eq_k :: rest))
  = Raise e.
Proof.
  intros Hacc Hrej.
  exact (latex_loop_rejected accepted [] eq_k rest e [] Hacc Hrej).
Qed.

Lemma convert_latex2mathml_inv model_latex model_mathml :
  convert_latex2mathml latex2mathml_convert html_unescape (Some model_latex)
  = Ok model_mathml ->
  exists mathml,
    Forall2 (fun eq m => latex2mathml_convert eq = Ok m) model_latex mathml /\
    model_mathml = map html_unescape mathml.
Proof.
  intros Hrun.
  destruct (accepted_or_rejected model_latex)
    as [[mathml Hall]|(accepted & eq_k & rest & e & -> & Hacc & Hrej)].
  - exists mathml. split; [exact Hall|].
    rewrite (convert_latex2mathml_accepted _ _ Hall) in Hrun.
    injection Hrun as <-. reflexivity.
  - rewrite (convert_latex2mathml_rejected_at _ _ _ _ Hacc Hrej) in Hrun.
    discriminate Hrun.
Qed.

(** X9: when the converter rejects an equation and accepts all those
    before it, [convert_latex2mathml] raises the converter's exception for
    that equation: the conversions already made are lost, and what comes
    after the rejected equation plays no part. *)
Theorem convert_latex2mathml_first_rejected accepted eq_k rest e :
  Forall (fun eq => exists m, latex2mathml_convert eq = Ok m) accepted ->
  latex2mathml_convert eq_k = Raise e ->
  convert_latex2mathml latex2mathml_convert html_unescape
    (Some (accepted ++ eq_k :: rest))
  = Raise e.
Proof.
  intros Hacc Hrej. unfold convert_latex2mathml.
  exact (latex_loop_rejected accepted [] eq_k rest e [] Hacc Hrej).
Qed.

(** X10: a returned list means every equation was accepted: the result has
    the length of the input and each element is the unescaped conversion
    of the equation at its index. *)
Theorem convert_latex2mathml_returns model_latex model_mathml :
  convert_latex2mathml latex2mathml_convert html_unescape (Some model_latex)
  = Ok model_mathml ->
  Forall2 (fun eq m' => exists m, latex2mathml_convert eq = Ok m /\
                                  m' = html_unescape m)
    model_latex model_mathml.
Proof.
  intros Hrun. apply convert_latex2mathml_inv in Hrun.
  destruct Hrun as (mathml & Hall & ->).
  induction Hall as [|eq_i m l mathml Hm _ IH]; simpl; constructor; eauto.
Qed.

(** X11: converting a concatenation gives the concatenation of the
    conversions, when both parts convert. *)
Theorem convert_latex2mathml_app l1 l2 m1 m2 :
  convert_latex2mathml latex2mathml_convert html_unescape (Some l1) = Ok m1 ->
  convert_latex2mathml latex2mathml_convert html_unescape (Some l2) = Ok m2 ->
  convert_latex2mathml latex2mathml_convert html_unescape (Some (l1 ++ l2))
  = Ok (m1 ++ m2).
Proof.
  intros H1 H2.
  apply convert_latex2mathml_inv in H1. destruct H1 as (ms1 & Hall1 & ->).
  apply convert_latex2mathml_inv in H2. destruct H2 as (ms2 & Hall2 & ->).
  rewrite <- map_app. apply convert_latex2mathml_accepted.
  apply Forall2_app; assumption.
Qed.

End Latex2MathMLRejections.

Lemma convert_latex2mathml_first_rejected_sample :
  convert_latex2mathml sample_convert sample_unescape
    (Some (["a = b"] ++ EmptyString :: ["c"]))
  = Raise (LibraryError "empty equation").
Proof.
  apply (convert_latex2mathml_first_rejected sample_convert sample_unescape
           ["a = b"] EmptyString ["c"] (LibraryError "empty equation")).
  - repeat constructor. eexists. reflexivity.
  - reflexivity.
Defined.

Lemma convert_latex2mathml_returns_sir :
  Forall2 (fun eq m' => exists m, sample_convert eq = Ok m /\
                                  m' = sample_unescape m)
    sir_latex
    (map (fun eq => ("<math>" ++ eq ++ "</math>")%string) sir_latex).
Proof.
  apply (convert_latex2mathml_returns sample_convert sample_unescape sir_latex).
  reflexivity.
Defined.

Lemma convert_latex2mathml_app_sample :
  convert_latex2mathml sample_convert sample_unescape (Some (["a"] ++ ["b"; "c"]))
  = Ok (["<math>a</math>"] ++ ["<math>b</math>"; "<math>c</math>"]).
Proof.
  apply (convert_latex2mathml_app sample_convert sample_unescape
           ["a"] ["b"; "c"]); reflexivity.
Defined.

(** ** convert_mathml2petrinet: requests without a response, and effects *)

Section MathML2PetriNetEffects.

Variable requests_get : string -> result response.
Variable requests_put : string -> list string -> result response.

(** The request a call makes. *)
Lemma convert_mathml2petrinet_run model_mathml w :
  convert_mathml2petrinet requests_get requests_put model_mathml w
  = match model_mathml with
    | None =>
        match requests_get (REST_URL_SKEMA ++ "/ping")%string with
        | Ok res => (printed w (status_line res), Ok empty_dict)
        | Raise e => (w, Raise e)
        end
    | Some mathml =>
        match requests_put (REST_URL_SKEMA ++ "/mathml/acset")%string mathml with
        | Ok res =>
            (printed w (status_line res),
             if status_code res =? 200 then res_json res else Ok empty_dict)
        | Raise e => (w, Raise e)
        end
    end.
Proof.
  unfold convert_mathml2petrinet. destruct model_mathml as [mathml|].
  - rewrite bind_lift.
    destruct (requests_put (REST_URL_SKEMA ++ "/mathml/acset")%string mathml)
      as [res|e]; [|reflexivity].
    rewrite bind_eq. unfold St.print at 1.
    destruct (status_code res =? 200); [|reflexivity].
    rewrite bind_lift. destruct (res_json res); reflexivity.
  - rewrite bind_lift.
    destruct (requests_get (REST_URL_SKEMA ++ "/ping")%string) as [res|e];
      reflexivity.
Qed.

(** X12: a request that raises instead of yielding a response (no
    connection, a timeout) is not caught: the exception leaves
    [convert_mathml2petrinet], on the conversion path as on the ping path,
    and nothing is printed. *)
Theorem convert_mathml2petrinet_no_response model_mathml e w :
  match model_mathml with
  | None => requests_get (REST_URL_SKEMA ++ "/ping")%string
  | Some mathml => requests_put (REST_URL_SKEMA ++ "/mathml/acset")%string mathml
  end = Raise e ->
  convert_mathml2petrinet requests_get requests_put model_mathml w = (w, Raise e).
Proof.
  intros Hreq. rewrite convert_mathml2petrinet_run.
  destruct model_mathml as [mathml|]; rewrite Hreq; reflexivity.
Qed.


End MathML2PetriNetEffects.

Lemma convert_mathml2petrinet_no_response_unreachable :
  convert_mathml2petrinet unreachable_get unreachable_put (Some ["<math></math>"])
    (world_of JNull)
  = (world_of JNull, Raise (LibraryError "ConnectionError")).
Proof.
  apply (convert_mathml2petrinet_no_response unreachable_get unreachable_put
           (Some ["<math></math>"]) (LibraryError "ConnectionError")
           (world_of JNull)).
  reflexivity.
Defined.

(** ** The cells run on a model *)

Lemma keeps_files_convert_mathml2petrinet get put model_mathml :
  keeps_files (convert_mathml2petrinet get put model_mathml).
Proof.
  intros w. rewrite convert_mathml2petrinet_run.
  destruct model_mathml as [mathml|].
  - destruct (put (REST_URL_SKEMA ++ "/mathml/acset")%string mathml);
      reflexivity.
  - destruct (get (REST_URL_SKEMA ++ "/ping")%string); reflexivity.
Qed.

Section NotebookFacts.

Variable latex2mathml_convert : string -> result string.
Variable html_unescape : string -> string.
Variable requests_get : string -> result response.
Variable requests_put : string -> list string -> result response.
Variable P : Plotting.


(** X15: the cells never write a file, whatever the converter, the
    service and the plotting libraries do: [draw_graph] is called without
    a [save_path]. *)
Theorem run_model_writes_no_file model_latex slot w :
  files (fst (run_model latex2mathml_convert html_unescape requests_get
                requests_put P model_latex slot w))
  = files w.
Proof.
  revert w.
  change (keeps_files (run_model latex2mathml_convert html_unescape requests_get
                         requests_put P model_latex slot)).
  unfold run_model.
  apply keeps_files_bind;
    [apply reads_only_keeps_files, reads_only_lift|intros latex_mathml].
  apply keeps_files_bind;
    [apply keeps_files_convert_mathml2petrinet|intros amr].
  apply keeps_files_bind; [apply keeps_files_assign|intros _].
  apply reads_only_keeps_files. intros w. apply draw_graph_no_save_path.
Qed.

End NotebookFacts.


(** With a service that answers with the SIR document the cells draw it. *)
Example run_model_served :
  let out := run_model sample_convert sample_unescape answering_get serving_put
               sample_plotting sir_latex 0%nat (world_of JNull) in
  snd out = Ok tt /\
  heap (fst out) 0%nat = sir_model /\
  stdout (fst out) = [status_line served] /\
  files (fst out) = [].
Proof. cbv zeta. repeat split. Qed.

(** ** What a returned reshape guarantees *)

Lemma res_bind_inv {A B} (r : result A) (k : A -> result B) b :
  Res.bind r k = Ok b -> exists a, r = Ok a /\ k a = Ok b.
Proof. destruct r as [a|e]; simpl; [eauto|discriminate]. Qed.

Lemma traverse_inv {A B} (f : A -> result B) l : forall out,
  Res.traverse f l = Ok out -> Forall2 (fun x y => f x = Ok y) l out.
Proof.
  induction l as [|x l IH]; simpl; intros out Hrun.
  - injection Hrun as <-. constructor.
  - apply res_bind_inv in Hrun. destruct Hrun as (y & Hy & Hrun).
    apply res_bind_inv in Hrun. destruct Hrun as (ys & Hys & Hrun).
    injection Hrun as <-. constructor; [exact Hy|apply IH; exact Hys].
Qed.

Lemma traverse2_inv {A B C} (inner : A -> result (list B)) (f : A -> B -> result C)
    l : forall out,
  Res.traverse2 inner f l = Ok out ->
  forall z, In z out ->
    exists x ys y, In x l /\ inner x = Ok ys /\ In y ys /\ f x y = Ok z.
Proof.
  induction l as [|x l IH]; simpl; intros out Hrun z Hz.
  - injection Hrun as <-. destruct Hz.
  - apply res_bind_inv in Hrun. destruct Hrun as (ys & Hys & Hrun).
    apply res_bind_inv in Hrun. destruct Hrun as (zs & Hzs & Hrun).
    apply res_bind_inv in Hrun. destruct Hrun as (rest & Hrest & Hrun).
    injection Hrun as <-. apply in_app_or in Hz. destruct Hz as [Hz|Hz].
    + apply traverse_inv in Hzs.
      assert (Hy : exists y, In y ys /\ f x y = Ok z).
      { clear -Hzs Hz. induction Hzs as [|y z' ys zs Hyz _ IHz].
        - destruct Hz.
        - destruct Hz as [<-|Hz].
          + exists y. split; [left; reflexivity|exact Hyz].
          + destruct (IHz Hz) as (y' & Hy' & Hf). exists y'. split; [right|]; auto. }
      destruct Hy as (y & Hy & Hf). exists x, ys, y. auto.
    + destruct (IH rest Hrest z Hz) as (x' & ys' & y & Hx' & Hin & Hy & Hf).
      exists x', ys', y. auto.
Qed.

Lemma Forall2_In_l {A B} (R : A -> B -> Prop) l l' x :
  Forall2 R l l' -> In x l -> exists y, In y l' /\ R x y.
Proof.
  induction 1 as [|a b l l' Hab _ IH]; intros Hx.
  - destruct Hx.
  - destruct Hx as [<-|Hx].
    + exists b. split; [left; reflexivity|exact Hab].
    + destruct (IH Hx) as (y & Hy & HR). exists y. split; [right|]; auto.
Qed.

Lemma Forall2_In_r {A B} (R : A -> B -> Prop) l l' y :
  Forall2 R l l' -> In y l' -> exists x, In x l /\ R x y.
Proof.
  induction 1 as [|a b l l' Hab _ IH]; intros Hy.
  - destruct Hy.
  - destruct Hy as [<-|Hy].
    + exists a. split; [left; reflexivity|exact Hab].
    + destruct (IH Hy) as (x & Hx & HR). exists x. split; [right|]; auto.
Qed.

(** X16: whenever the AMR reshape returns, whatever the document looks
    like otherwise, every node row is an identifier typed ['S'] or ['T']
    and every edge row has all four columns, with type ['I'] or ['O'];
    the transition end of every edge (the target of an ['I'] row, the
    source of an ['O'] row) is a ['T'] row of the node list. *)
Theorem amr_frames_rows model df_nodes df_edges :
  amr_frames model = Ok (df_nodes, df_edges) ->
  (forall n, In n df_nodes ->
     exists id ty, n = node_row id ty /\ (ty = "S" \/ ty = "T")) /\
  (forall e, In e df_edges ->
     exists source target,
       (e = edge_row source target "I" /\ In (node_row target "T") df_nodes) \/
       (e = edge_row source target "O" /\ In (node_row source "T") df_nodes)).
Proof.
  intros Hrun. unfold amr_frames in Hrun.
  apply res_bind_inv in Hrun. destruct Hrun as (nodes & Hnodes & Hrun).
  apply res_bind_inv in Hrun. destruct Hrun as (edges & Hedges & Hrun).
  injection Hrun as <- <-.
  unfold amr_node_list in Hnodes.
  apply res_bind_inv in Hnodes. destruct Hnodes as (sl & Hsl & Hnodes).
  apply res_bind_inv in Hnodes. destruct Hnodes as (srows & Hsrows & Hnodes).
  apply res_bind_inv in Hnodes. destruct Hnodes as (tl & Htl & Hnodes).
  apply res_bind_inv in Hnodes. destruct Hnodes as (trows & Htrows & Hnodes).
  injection Hnodes as <-.
  apply traverse_inv in Hsrows, Htrows.
  assert (Htrans : forall trans tid, In trans tl -> getitem trans "id" = Ok tid ->
                     In (node_row tid "T") (srows ++ trows)).
  { intros trans tid Hin Hid. apply in_or_app. right.
    destruct (Forall2_In_l _ _ _ _ Htrows Hin) as (row & Hrow & Hf).
    rewrite Hid in Hf. simpl in Hf. injection Hf as <-. exact Hrow. }
  split.
  - intros n Hn. apply in_app_or in Hn. destruct Hn as [Hn|Hn].
    + destruct (Forall2_In_r _ _ _ _ Hsrows Hn) as (state & _ & Hf).
      apply res_bind_inv in Hf. destruct Hf as (id & _ & Hf).
      injection Hf as <-. eauto.
    + destruct (Forall2_In_r _ _ _ _ Htrows Hn) as (trans & _ & Hf).
      apply res_bind_inv in Hf. destruct Hf as (id & _ & Hf).
      injection Hf as <-. eauto.
  - unfold amr_edge_list in Hedges. rewrite Htl in Hedges. simpl in Hedges.
    apply res_bind_inv in Hedges. destruct Hedges as (irows & Hirows & Hedges).
    apply res_bind_inv in Hedges. destruct Hedges as (orows & Horows & Hedges).
    injection Hedges as <-.
    intros e He. apply in_app_or in He. destruct He as [He|He].
    + destruct (traverse2_inv _ _ _ _ Hirows e He)
        as (trans & ys & state_id & Hin & _ & _ & Hf).
      apply res_bind_inv in Hf. destruct Hf as (tid & Hid & Hf).
      injection Hf as <-. exists state_id, tid. left. split; [reflexivity|].
      apply (Htrans trans tid Hin Hid).
    + destruct (traverse2_inv _ _ _ _ Horows e He)
        as (trans & ys & state_id & Hin & _ & _ & Hf).
      apply res_bind_inv in Hf. destruct Hf as (tid & Hid & Hf).
      injection Hf as <-. exists tid, state_id. right. split; [reflexivity|].
      apply (Htrans trans tid Hin Hid).
Qed.

Lemma amr_frames_rows_dangling :
  (forall n, In n (node_rows [JStr "S"]
                     [{| t_id := JStr "t0"; t_input := [JStr "X"];
                         t_output := [JStr "S"] |}]) ->
     exists id ty, n = node_row id ty /\ (ty = "S" \/ ty = "T")) /\
  (forall e, In e (edge_rows [{| t_id := JStr "t0"; t_input := [JStr "X"];
                                 t_output := [JStr "S"] |}]) ->
     exists source target,
       (e = edge_row source target "I" /\
        In (node_row target "T")
          (node_rows [JStr "S"]
             [{| t_id := JStr "t0"; t_input := [JStr "X"];
                 t_output := [JStr "S"] |}])) \/
       (e = edge_row source target "O" /\
        In (node_row source "T")
          (node_rows [JStr "S"]
             [{| t_id := JStr "t0"; t_input := [JStr "X"];
                 t_output := [JStr "S"] |}]))).
Proof.
  apply (amr_frames_rows dangling_model). reflexivity.
Defined.
